(** * News Verification Assistant: a shallow embedding of [streamlit_app.py]

    The pipeline of [streamlit_app.py] (assumption generation, evidence
    fetching, per-assumption evaluation, synthesis, verdict extraction) is
    embedded as Rocq functions.  Pure string processing becomes pure
    functions; the code that talks to the LLM, the search service, the
    logger and the Streamlit surface runs in a small state-and-exception
    monad whose state is the trace of every external interaction.

    Python [str] values are modelled on the code points U+0000..U+00FF, one
    [ascii] per code point; the string methods below are exact on that
    range. *)

From Stdlib Require Import List String Ascii Bool Arith ZArith Lia.
Import ListNotations.
Open Scope string_scope.

(* ================================================================== *)
(** ** Python string methods *)
(* ================================================================== *)

Module Str.

(** The double-quote character and the newline, to build the literals of
    the source that contain them. *)
Definition dq : string := String (ascii_of_nat 34) "".
Definition nl : string := String (ascii_of_nat 10) "".

Definition in_range (lo hi n : nat) : bool := ((lo <=? n) && (n <=? hi))%nat.

(** [str.lower] on one code point: A-Z, and the Latin-1 capitals
    U+00C0..U+00DE except the multiplication sign U+00D7. *)
Definition lower_char (c : ascii) : ascii :=
  let n := nat_of_ascii c in
  if in_range 65 90 n then ascii_of_nat (n + 32)
  else if in_range 192 222 n && negb (n =? 215)%nat then ascii_of_nat (n + 32)
  else c.

(** [str.lower()] *)
Fixpoint lower (s : string) : string :=
  match s with
  | EmptyString => EmptyString
  | String c s' => String (lower_char c) (lower s')
  end.

(** [str.isspace] on one code point: TAB, LF, VT, FF, CR, the four
    separators U+001C..U+001F, SPACE, NEL (U+0085) and NBSP (U+00A0). *)
Definition is_space (c : ascii) : bool :=
  let n := nat_of_ascii c in
  in_range 9 13 n || in_range 28 32 n || (n =? 133)%nat || (n =? 160)%nat.

(** [str.lstrip()] *)
Fixpoint lstrip (s : string) : string :=
  match s with
  | EmptyString => EmptyString
  | String c s' => if is_space c then lstrip s' else s
  end.

(** [str.rstrip()]: a character is kept when it is not whitespace or
    something after it is kept. *)
Fixpoint rstrip (s : string) : string :=
  match s with
  | EmptyString => EmptyString
  | String c s' =>
      match rstrip s' with
      | EmptyString => if is_space c then EmptyString else String c EmptyString
      | r => String c r
      end
  end.

(** [str.strip()] *)
Definition strip (s : string) : string := rstrip (lstrip s).

(** Python truthiness of a [str]: the empty string is false. *)
Definition truthy (s : string) : bool :=
  match s with EmptyString => false | _ => true end.

(** The line boundaries of [str.splitlines] below U+0100, CR apart:
    LF, VT, FF, FS, GS, RS and NEL.  (CR is handled with CR LF.) *)
Definition is_linebreak (c : ascii) : bool :=
  let n := nat_of_ascii c in
  in_range 10 12 n || in_range 28 30 n || (n =? 133)%nat.

Definition is_cr (c : ascii) : bool := (nat_of_ascii c =? 13)%nat.
Definition is_lf (c : ascii) : bool := (nat_of_ascii c =? 10)%nat.

(** [str.splitlines()]: [cur] is the line being read.  A boundary ends
    the current line (CR LF counts as one boundary); the text after the
    last boundary is a line only when it is not empty. *)
Fixpoint splitlines_from (cur s : string) : list string :=
  match s with
  | EmptyString => if truthy cur then [cur] else []
  | String c s' =>
      if is_cr c then
        match s' with
        | String c' s'' =>
            if is_lf c' then cur :: splitlines_from "" s''
            else cur :: splitlines_from "" s'
        | EmptyString => cur :: splitlines_from "" s'
        end
      else if is_linebreak c then cur :: splitlines_from "" s'
      else splitlines_from (cur ++ String c "") s'
  end.

Definition splitlines (s : string) : list string := splitlines_from "" s.

(** [s.startswith(p)] *)
Fixpoint startswith (p s : string) : bool :=
  match p, s with
  | EmptyString, _ => true
  | String a p', String b s' => Ascii.eqb a b && startswith p' s'
  | String _ _, EmptyString => false
  end.

(** [str.replace(old, new)] for a non-empty [old]: occurrences are replaced
    from the left and do not overlap.  [skip] counts the characters of a
    matched occurrence that are still to be consumed. *)
Fixpoint replace_from (old new : string) (skip : nat) (s : string) : string :=
  match s with
  | EmptyString => EmptyString
  | String c s' =>
      match skip with
      | S k => replace_from old new k s'
      | O =>
          if startswith old s
          then new ++ replace_from old new (String.length old - 1) s'
          else String c (replace_from old new 0 s')
      end
  end.

(** [str.replace(old, new)] with an empty [old] puts [new] before every
    character and at the end. *)
Fixpoint intersperse_all (new s : string) : string :=
  match s with
  | EmptyString => new
  | String c s' => new ++ String c (intersperse_all new s')
  end.

Definition replace (old new s : string) : string :=
  match old with
  | EmptyString => intersperse_all new s
  | _ => replace_from old new 0 s
  end.

(** [sep.join(parts)] *)
Fixpoint join (sep : string) (parts : list string) : string :=
  match parts with
  | [] => ""
  | [p] => p
  | p :: rest => p ++ sep ++ join sep rest
  end.

(** The text whose lines are [ls], each ended by a newline: the shape of
    the triple-quoted templates of the source. *)
Fixpoint lines (ls : list string) : string :=
  match ls with
  | [] => ""
  | l :: rest => l ++ nl ++ lines rest
  end.

(** [re.search(pattern, s)] for a pattern made of literal characters only
    (letters, space and colon are not regex metacharacters): the offset of
    the leftmost match, or [None]. *)
Fixpoint re_search (pattern s : string) : option nat :=
  if startswith pattern s then Some 0
  else match s with
       | EmptyString => None
       | String _ s' => option_map S (re_search pattern s')
       end.

(** Truthiness of the result of [re.search]: a match object is true,
    [None] is false. *)
Definition matched (m : option nat) : bool :=
  match m with Some _ => true | None => false end.

(** [pat] occurs in [s]. *)
Definition occurs_in (pat s : string) : Prop :=
  exists pre post, s = pre ++ pat ++ post.

End Str.

(* ================================================================== *)
(** ** Verdict extraction *)
(* ================================================================== *)

(** [check_result(text)] returns ["FAKE"], ["REAL"] or [None]. *)
Definition check_result (text : string) : option string :=
  let text_lower := Str.lower text in
  if Str.matched (Str.re_search "final result: fake" text_lower) then Some "FAKE"
  else if Str.matched (Str.re_search "final result: real" text_lower) then Some "REAL"
  else None.

(** The three verdict labels.  [main] branches on the value returned by
    [check_result]: ["FAKE"] is rendered with [st.error], ["REAL"] with
    [st.success], anything else (that is, [None]) with [st.info]; the
    last case is the label UNKNOWN. *)
Inductive FinalVerdict : Set := FAKE | REAL | UNKNOWN.

Definition verdict_label (verdict : option string) : FinalVerdict :=
  match verdict with
  | Some v => if String.eqb v "FAKE" then FAKE
              else if String.eqb v "REAL" then REAL
              else UNKNOWN
  | None => UNKNOWN
  end.

(* ================================================================== *)
(** ** Python values, exceptions and the insertion-ordered dict *)
(* ================================================================== *)

#[local] Unset Elimination Schemes.

(** Values decoded from the JSON replies of the search service.  Numbers
    are the integers. *)
Inductive json : Type :=
| JNull
| JBool (b : bool)
| JNum (n : Z)
| JStr (s : string)
| JList (l : list json)
| JDict (d : list (string * json)).
#[local] Set Elimination Schemes.

Definition type_name (v : json) : string :=
  match v with
  | JNull => "NoneType"
  | JBool _ => "bool"
  | JNum _ => "int"
  | JStr _ => "str"
  | JList _ => "list"
  | JDict _ => "dict"
  end.

Definition is_dict (v : json) : bool :=
  match v with JDict _ => true | _ => false end.

(** Exceptions.  Every exception of the model is an instance of
    [Exception]; [exn_text] is [str(e)]. *)
Inductive exn_class : Set :=
| IndexError | KeyError | AttributeError | TypeError | ValueError
| OtherException.

Record exn : Type := mk_exn { exn_kind : exn_class; exn_text : string }.

(** The outcome of a Python expression: a value, or a raised exception. *)
Inductive Exc (A : Type) : Type :=
| Ok (a : A)
| Raise (e : exn).
Arguments Ok {A} a.
Arguments Raise {A} e.

Definition exc_bind {A B} (x : Exc A) (f : A -> Exc B) : Exc B :=
  match x with
  | Ok a => f a
  | Raise e => Raise e
  end.

(** [except Exception] *)
Definition is_Exception (e : exn) : bool := true.

(** [except (IndexError, KeyError)] *)
Definition is_IndexError_or_KeyError (e : exn) : bool :=
  match exn_kind e with
  | IndexError | KeyError => true
  | _ => false
  end.

Definition no_attribute (v : json) (attr : string) : exn :=
  mk_exn AttributeError
    ("'" ++ type_name v ++ "' object has no attribute '" ++ attr ++ "'").

(** [l[i]] on a list. *)
Definition py_index (l : list json) (i : nat) : Exc json :=
  match nth_error l i with
  | Some v => Ok v
  | None => Raise (mk_exn IndexError "list index out of range")
  end.

Fixpoint assoc {V : Type} (k : string) (d : list (string * V)) : option V :=
  match d with
  | [] => None
  | (k', v) :: d' => if String.eqb k k' then Some v else assoc k d'
  end.

(** [v.get(key, default)]: only a dict has the method. *)
Definition py_get (v : json) (key : string) (default : json) : Exc json :=
  match v with
  | JDict d => Ok (match assoc key d with Some x => x | None => default end)
  | _ => Raise (no_attribute v "get")
  end.

(** [v.strip()]: only a str has the method. *)
Definition py_strip (v : json) : Exc string :=
  match v with
  | JStr s => Ok (Str.strip s)
  | _ => Raise (no_attribute v "strip")
  end.

(** A Python [dict] with [str] keys: the items in insertion order, every
    key once. *)
Module PyDict.

Definition t (V : Type) : Type := list (string * V).

Definition empty {V : Type} : t V := [].

(** [d[k] = v]: a key that is present keeps its position and takes the new
    value, a new key goes last. *)
Fixpoint set {V : Type} (k : string) (v : V) (d : t V) : t V :=
  match d with
  | [] => [(k, v)]
  | (k', v') :: d' =>
      if String.eqb k k' then (k', v) :: d' else (k', v') :: set k v d'
  end.

Definition get {V : Type} (k : string) (d : t V) : option V := assoc k d.

Definition keys {V : Type} (d : t V) : list string := map fst d.

Definition items {V : Type} (d : t V) : list (string * V) := d.

(** One step of a dict comprehension: the pair [kv] is stored in [d]. *)
Definition put {V : Type} (d : t V) (kv : string * V) : t V :=
  set (fst kv) (snd kv) d.

(** [{k: v for k, v in pairs}] *)
Definition of_pairs {V : Type} (pairs : list (string * V)) : t V :=
  fold_left put pairs empty.

End PyDict.

(* ================================================================== *)
(** ** External services, the trace, and the monad of the pipeline *)
(* ================================================================== *)

(** The reply of [model.generate_content_async]: reading [response.text]
    gives the text, or raises when the reply carries no usable text. *)
Record Response : Type := mk_response { response_text : Exc string }.

(** The reply of [tavily_client.search]: a dict whose ["results"] key, when
    present, holds the list of evidence records. *)
Record SearchReply : Type := mk_reply { reply_results : option (list json) }.

(** [result.get("results", [])] *)
Definition get_results (result : SearchReply) : list json :=
  match reply_results result with
  | Some l => l
  | None => []
  end.

Inductive log_level : Set := LogError | LogWarning.

Inductive st_call : Set :=
| StSpinner | StSuccess | StError | StWarning | StInfo
| StExpander | StTextArea.

(** What the pipeline does to the outside world, in the order it does it. *)
Inductive event : Type :=
| EvGenerate (system_instruction : option string) (prompt : string)
| EvSearch (query : string)
| EvSleep (seconds : nat)
| EvLog (level : log_level) (msg : string)
| EvSt (call : st_call) (msg : string).

Definition is_generate (ev : event) : bool :=
  match ev with EvGenerate _ _ => true | _ => false end.

Definition is_search (ev : event) : bool :=
  match ev with EvSearch _ => true | _ => false end.

Definition trace : Type := list event.

(** The LLM calls and the searches recorded in a trace. *)
Definition generate_calls (t : trace) : list event := filter is_generate t.
Definition search_calls (t : trace) : list event := filter is_search t.

(** The two services.  The reply to a call may depend on its arguments and
    on how many calls of the same service came before it in the run. *)
Record Env : Type := mk_env {
  llm : nat -> option string -> string -> Exc Response;
  tavily : nat -> string -> Exc SearchReply
}.

(** A computation: it reads and extends the trace, and returns a value or
    raises. *)
Definition M (A : Type) : Type := trace -> Exc A * trace.

Definition ret {A} (a : A) : M A := fun t => (Ok a, t).

Definition bind {A B} (m : M A) (f : A -> M B) : M B :=
  fun t =>
    match m t with
    | (Ok a, t') => f a t'
    | (Raise e, t') => (Raise e, t')
    end.

Definition lift {A} (x : Exc A) : M A := fun t => (x, t).

(** [try: body  except <classes> as e: handler(e)] *)
Definition try_except {A} (body : M A) (classes : exn -> bool)
    (handler : exn -> M A) : M A :=
  fun t =>
    match body t with
    | (Ok a, t') => (Ok a, t')
    | (Raise e, t') => if classes e then handler e t' else (Raise e, t')
    end.

Definition emit (ev : event) : M unit := fun t => (Ok tt, (t ++ [ev])%list).

Declare Scope pipeline_scope.
Delimit Scope pipeline_scope with pipeline.
Notation "x <- m ;; k" := (bind m (fun x => k))
  (at level 61, m at next level, right associativity) : pipeline_scope.
Notation "m ;; k" := (bind m (fun _ => k))
  (at level 61, right associativity) : pipeline_scope.
Open Scope pipeline_scope.

Definition logging (level : log_level) (msg : string) : M unit :=
  emit (EvLog level msg).

Definition st (call : st_call) (msg : string) : M unit :=
  emit (EvSt call msg).

Definition sleep (seconds : nat) : M unit := emit (EvSleep seconds).

(* ================================================================== *)
(** ** The pipeline *)
(* ================================================================== *)

Definition SYSTEM_INSTRUCTION : string :=
  "You are an AI assistant designed to analyze the validity of news. "
  ++ "Your responses should be concise, formatted as bullet points, and avoid "
  ++ "any additional commentary. Maintain a neutral and objective tone, ensuring "
  ++ "that each assumption is framed as a question that can be directly queried online.".

(** [create_template(user_input)] *)
Definition create_template (user_input : string) : string :=
  Str.lines
    [ "Here is a statement:";
      user_input;
      "Make a bullet point list of the assumptions you made when given the above statement.";
      "These assumptions will then be used to check online for the validity of the statement.";
      "Only Give Bullet Points, No Other Text";
      "";
      "Example:";
      "";
      "Input:";
      "deepseek company is owned by elon musk";
      "";
      "Output:";
      "* Does elon musk own deepseek?";
      "* Does Elon Musk have any publicly known business interests or holdings that could include a company named "
        ++ Str.dq ++ "Deepseek" ++ Str.dq ++ "?";
      "* Are there any news articles, press releases, or official statements confirming Elon Musk's ownership of "
        ++ Str.dq ++ "Deepseek" ++ Str.dq ++ "?";
      "* Do any financial databases or corporate registries list Elon Musk as an owner or shareholder of "
        ++ Str.dq ++ "Deepseek" ++ Str.dq ++ "?" ].

(** The prompt built in the loop of [evaluate_assertions]. *)
Definition evaluation_prompt (user_input statement content : string) : string :=
  Str.lines
    [ "Here is a statement:  ";
      Str.strip statement ++ "  ";
      "";
      "Carefully analyze the correctness of this statement using the provided information gathered from the internet:  ";
      content ++ "  ";
      "";
      "### Step-by-Step Evaluation:";
      "1. Identify the key claims made in the statement.  ";
      "2. Cross-check these claims with the provided context and assess whether they align with verified information.  ";
      "3. Consider any contradictions or missing details that might affect the validity of the statement.  ";
      "4. Based on your reasoning, determine whether:";
      "```" ++ user_input ++ "``` is Real News or Fake News.";
      "";
      "### Final Decision:  ";
      "- If the above news is Real News then output *TRUE* else output *FALSE*.";
      "";
      "Provide your reasoning along with the final answer and include the source URL of the data." ].

(** The prompt built in [asyncprocess_and_evaluate]. *)
Definition synthesis_prompt (combined_text : string) : string :=
  Str.lines
    [ "";
      "General Prompt:";
      "";
      "You are provided with a list of reasoning steps, where each step includes its chain-of-thought and a preliminary conclusion ";
      "regarding the veracity of a news item (either " ++ Str.dq ++ "FAKE" ++ Str.dq
        ++ " or " ++ Str.dq ++ "REAL" ++ Str.dq
        ++ "). Your task is to synthesize these individual steps into a cohesive ";
      "overall reasoning narrative, and provide a final verdict on whether the news is FAKE or REAL.";
      "";
      "Instructions:";
      "";
      "1. Read and understand each reasoning step below.";
      "2. Extract key evidence and conclusions.";
      "3. Combine these pieces into a single comprehensive chain-of-thought.";
      "4. Decide if the news is FAKE or REAL.";
      "5. Clearly justify your final decision in the combined narrative.";
      "6. Write the reasoning in such a way that people can easly understand.";
      "";
      "Output Format:";
      "Your final output should contain two sections:";
      "Overall Reasoning: A detailed explanation that synthesizes the evidence and logic.";
      "Final Result: A clear statement indicating either " ++ Str.dq ++ "FAKE" ++ Str.dq
        ++ " or " ++ Str.dq ++ "REAL" ++ Str.dq ++ ".";
      "";
      "Example Output:";
      "";
      "Final Result: [FAKE or REAL]";
      "";
      "Overall Reasoning: [Detailed explanation combining evidence and reasoning.]";
      "";
      "Reasoning Steps:";
      combined_text ].

(** The message returned when no assumption was generated. *)
Definition NO_ASSERTIONS : string := "No assertions generated. Cannot proceed.".

Section Pipeline.

Variable env : Env.

(** [await model.generate_content_async(prompt)], for the model built with
    the given system instruction. *)
Definition generate_content_async (system_instruction : option string)
    (prompt : string) : M Response :=
  fun t =>
    (llm env (List.length (generate_calls t)) system_instruction prompt,
     (t ++ [EvGenerate system_instruction prompt])%list).

(** [await tavily_client.search(query=...)] *)
Definition tavily_search (query : string) : M SearchReply :=
  fun t =>
    (tavily env (List.length (search_calls t)) query, (t ++ [EvSearch query])%list).

(** The model of the generator carries [SYSTEM_INSTRUCTION]; [model_eval]
    carries none. *)
Definition model : option string := Some SYSTEM_INSTRUCTION.
Definition model_eval : option string := None.

(** The list comprehension of [generate_assertions]. *)
Definition assertions_of (assertions : string) : list string :=
  map (fun line => Str.replace "*" "" (Str.strip line))
      (filter (fun line => Str.truthy (Str.strip line))
              (Str.splitlines assertions)).

(** [generate_assertions(user_input)] *)
Definition generate_assertions (user_input : string) : M (list string) :=
  st StSpinner "Identifying key assumptions for verification..." ;;
  let template := create_template user_input in
  try_except
    (response <- generate_content_async model template ;;
     text <- lift (response_text response) ;;
     let assertions := Str.strip text in
     let assertions_list := assertions_of assertions in
     st StSuccess "Key assumptions identified." ;;
     ret assertions_list)
    is_Exception
    (fun e =>
       logging LogError ("Error generating assertions: " ++ exn_text e) ;;
       st StError "Failed to identify assumptions." ;;
       ret []).

(** [fetch_result(assertion)] *)
Definition fetch_result (assertion : string) : M (string * list json) :=
  try_except
    (result <- tavily_search assertion ;;
     ret (assertion, get_results result))
    is_Exception
    (fun e =>
       logging LogError
         ("Error fetching search results for '" ++ assertion ++ "': "
          ++ exn_text e) ;;
       ret (assertion, [])).

(** [await asyncio.gather] over the tasks: the results in the order of the
    tasks.
    The tasks are run one after the other in that order, so the n-th
    search of the run is the one of the n-th task; an exception escaping a
    task is raised by [gather]. *)
Fixpoint gather {A} (tasks : list (M A)) : M (list A) :=
  match tasks with
  | [] => ret []
  | task :: rest =>
      r <- task ;;
      rs <- gather rest ;;
      ret (r :: rs)
  end.

(** [fetch_all_results(assertions)] *)
Definition fetch_all_results (assertions : list string)
    : M (PyDict.t (list json)) :=
  st StSpinner "Retrieving online verification results..." ;;
  let tasks := map fetch_result assertions in
  results <- gather tasks ;;
  st StSuccess "Online verification results retrieved." ;;
  ret (PyDict.of_pairs results).

(** The body of the first [try] of the loop of [evaluate_assertions]:
    the title, content and url of the first record. *)
Definition read_first (context : list json) : Exc (string * string * string) :=
  exc_bind (py_index context 0) (fun first =>
  exc_bind (py_get first "title" (JStr "")) (fun v =>
  exc_bind (py_strip v) (fun title =>
  exc_bind (py_index context 0) (fun first =>
  exc_bind (py_get first "content" (JStr "")) (fun v =>
  exc_bind (py_strip v) (fun content =>
  exc_bind (py_index context 0) (fun first =>
  exc_bind (py_get first "url" (JStr "")) (fun v =>
  exc_bind (py_strip v) (fun url =>
  Ok (title, content, url)))))))))).

(** Truthiness of a list: the empty list is false. *)
Definition nonempty {A} (l : list A) : bool :=
  match l with [] => false | _ => true end.

(** The [for] loop of [evaluate_assertions] over the items that remain;
    [eval_response_list] is the list being filled, and each [continue]
    goes on with the rest of the items. *)
Fixpoint evaluate_loop (user_input : string)
    (items : list (string * list json)) (eval_response_list : list string)
    : M (list string) :=
  match items with
  | [] => ret eval_response_list
  | (statement, context) :: rest =>
      if negb (nonempty context) then
        logging LogWarning
          ("No results found for assertion: " ++ Str.strip statement) ;;
        st StWarning
          ("No search results found for '" ++ Str.strip statement ++ "'.") ;;
        evaluate_loop user_input rest eval_response_list
      else
        fields <-
          try_except
            (f <- lift (read_first context) ;; ret (Some f))
            is_IndexError_or_KeyError
            (fun e =>
               logging LogError
                 ("Error processing context for '" ++ Str.strip statement
                  ++ "': " ++ exn_text e) ;;
               st StError
                 ("Error processing context for '" ++ Str.strip statement
                  ++ "'.") ;;
               ret None) ;;
        match fields with
        | None => evaluate_loop user_input rest eval_response_list
        | Some (title, content, url) =>
            let prompt := evaluation_prompt user_input statement content in
            eval_response_list' <-
              try_except
                (eval_response <- generate_content_async model_eval prompt ;;
                 st StExpander
                   ("Evaluation for assertion: " ++ Str.strip statement) ;;
                 text <- lift (response_text eval_response) ;;
                 st StTextArea
                   (Str.strip text ++ Str.nl ++ Str.nl ++ "Source URL: " ++ url) ;;
                 text' <- lift (response_text eval_response) ;;
                 let appended := (eval_response_list ++ [Str.strip text'])%list in
                 sleep 1 ;;
                 ret appended)
                is_Exception
                (fun e =>
                   logging LogError
                     ("Error generating evaluation for assertion '"
                      ++ Str.strip statement ++ "': " ++ exn_text e) ;;
                   st StError
                     ("Failed to evaluate assertion '" ++ Str.strip statement
                      ++ "'.") ;;
                   ret eval_response_list) ;;
            evaluate_loop user_input rest eval_response_list'
        end
  end.

(** [evaluate_assertions(user_input, results_dict)] *)
Definition evaluate_assertions (user_input : string)
    (results_dict : PyDict.t (list json)) : M (list string) :=
  st StInfo "Evaluating each key assumption..." ;;
  eval_response_list <-
    evaluate_loop user_input (PyDict.items results_dict) [] ;;
  st StSuccess "All key assumptions evaluated." ;;
  ret eval_response_list.

(** [asyncprocess_and_evaluate(reasoning_list)] *)
Definition asyncprocess_and_evaluate (reasoning_list : list string) : M string :=
  let combined_text := Str.join (Str.nl ++ Str.nl) reasoning_list in
  let prompt := synthesis_prompt combined_text in
  st StSpinner "Synthesizing overall evaluation..." ;;
  final_result <- generate_content_async model_eval prompt ;;
  text <- lift (response_text final_result) ;;
  ret (Str.strip text).

(** [process_user_input(user_input)] *)
Definition process_user_input (user_input : string)
    : M (string * PyDict.t (list json)) :=
  assertions_list <- generate_assertions user_input ;;
  if negb (nonempty assertions_list) then
    ret (NO_ASSERTIONS, PyDict.empty)
  else
    results_dict <- fetch_all_results assertions_list ;;
    eval_results <- evaluate_assertions user_input results_dict ;;
    final_evaluation <- asyncprocess_and_evaluate eval_results ;;
    ret (final_evaluation, results_dict).

End Pipeline.

(** The events of a run of [generate_assertions]: when the reply has a
    text, and when the call or the reading of the text raised [e]. *)
Definition generator_events_ok (user_input : string) : trace :=
  [ EvSt StSpinner "Identifying key assumptions for verification...";
    EvGenerate model (create_template user_input);
    EvSt StSuccess "Key assumptions identified." ].

Definition generator_events_failed (user_input : string) (e : exn) : trace :=
  [ EvSt StSpinner "Identifying key assumptions for verification...";
    EvGenerate model (create_template user_input);
    EvLog LogError ("Error generating assertions: " ++ exn_text e);
    EvSt StError "Failed to identify assumptions." ].

(** The first event of each of the three later stages. *)
Definition fetcher_started : event :=
  EvSt StSpinner "Retrieving online verification results...".
Definition evaluator_started : event :=
  EvSt StInfo "Evaluating each key assumption...".
Definition synthesizer_started : event :=
  EvSt StSpinner "Synthesizing overall evaluation...".

(** The evidence [fetch_result] returns for [assertion] when its search is
    the [n]-th of the run, and the events it leaves. *)
Definition fetch_outcome (env : Env) (n : nat) (assertion : string) : list json :=
  match tavily env n assertion with
  | Ok result => get_results result
  | Raise _ => []
  end.

Definition fetch_events (env : Env) (n : nat) (assertion : string) : trace :=
  EvSearch assertion ::
  match tavily env n assertion with
  | Ok _ => []
  | Raise e =>
      [ EvLog LogError
          ("Error fetching search results for '" ++ assertion ++ "': "
           ++ exn_text e) ]
  end.

(** The same for a list of assertions fetched from the [n]-th search on. *)
Fixpoint fetched_pairs (env : Env) (n : nat) (assertions : list string)
    : list (string * list json) :=
  match assertions with
  | [] => []
  | a :: rest => (a, fetch_outcome env n a) :: fetched_pairs env (S n) rest
  end.

Fixpoint fetched_events (env : Env) (n : nat) (assertions : list string) : trace :=
  match assertions with
  | [] => []
  | a :: rest => (fetch_events env n a ++ fetched_events env (S n) rest)%list
  end.

(** [l1] is [l2] with some elements left out, the others in their order. *)
Inductive subseq {A : Type} : list A -> list A -> Prop :=
| subseq_nil : subseq [] []
| subseq_skip (x : A) (l1 l2 : list A) : subseq l1 l2 -> subseq l1 (x :: l2)
| subseq_take (x : A) (l1 l2 : list A) : subseq l1 l2 -> subseq (x :: l1) (x :: l2).

Definition mem (k : string) (l : list string) : bool :=
  existsb (String.eqb k) l.

(** The elements of [l] that are not in [seen] and did not occur earlier in
    [l], in the order of [l]. *)
Fixpoint new_keys (seen l : list string) : list string :=
  match l with
  | [] => []
  | a :: l' =>
      if mem a seen then new_keys seen l'
      else a :: new_keys (seen ++ [a])%list l'
  end.

(** The events one item of the loop of [evaluate_assertions] leaves, by
    the branch taken: the evidence is empty; reading the first record
    raised an [IndexError] or a [KeyError]; the evaluation went through;
    the LLM call raised; reading the text of the reply raised. *)
Definition skipped_events (statement : string) : trace :=
  [ EvLog LogWarning ("No results found for assertion: " ++ Str.strip statement);
    EvSt StWarning
      ("No search results found for '" ++ Str.strip statement ++ "'.") ].

Definition malformed_events (statement : string) (e : exn) : trace :=
  [ EvLog LogError
      ("Error processing context for '" ++ Str.strip statement ++ "': "
       ++ exn_text e);
    EvSt StError
      ("Error processing context for '" ++ Str.strip statement ++ "'.") ].

Definition evaluation_failed (statement : string) (e : exn) : trace :=
  [ EvLog LogError
      ("Error generating evaluation for assertion '" ++ Str.strip statement
       ++ "': " ++ exn_text e);
    EvSt StError
      ("Failed to evaluate assertion '" ++ Str.strip statement ++ "'.") ].

Definition evaluated_events (prompt statement text url : string) : trace :=
  [ EvGenerate model_eval prompt;
    EvSt StExpander ("Evaluation for assertion: " ++ Str.strip statement);
    EvSt StTextArea
      (Str.strip text ++ Str.nl ++ Str.nl ++ "Source URL: " ++ url);
    EvSleep 1 ].

Definition call_failed_events (prompt statement : string) (e : exn) : trace :=
  EvGenerate model_eval prompt :: evaluation_failed statement e.

Definition text_failed_events (prompt statement : string) (e : exn) : trace :=
  EvGenerate model_eval prompt
  :: EvSt StExpander ("Evaluation for assertion: " ++ Str.strip statement)
  :: evaluation_failed statement e.

(** An item of the EvidenceSet that has at least one evidence record. *)
Definition has_evidence (item : string * list json) : bool :=
  nonempty (snd item).

(** An event of the handler of the first [try] of the loop: an error
    message that starts with "Error processing context for '". *)
Definition is_malformed_event (ev : event) : bool :=
  match ev with
  | EvLog LogError msg | EvSt StError msg =>
      Str.startswith "Error processing context for '" msg
  | _ => false
  end.

(** Two environments answer every search alike, the [n]-th of the run
    apart. *)
Definition same_searches_except (n : nat) (env env' : Env) : Prop :=
  forall m query, m <> n -> tavily env' m query = tavily env m query.

(** [ev] is the LLM call made for an item of [items] that has evidence
    whose first record could be read. *)
Definition evaluation_call_of (user_input : string)
    (items : list (string * list json)) (ev : event) : Prop :=
  exists statement context title content url,
    In (statement, context) items
    /\ context <> []
    /\ read_first context = Ok (title, content, url)
    /\ ev = EvGenerate model_eval
              (evaluation_prompt user_input statement content).

(** [judgment] is the stripped text of the reply to such a call. *)
Definition judgment_of (env : Env) (user_input : string)
    (items : list (string * list json)) (judgment : string) : Prop :=
  exists statement context title content url n response text,
    In (statement, context) items
    /\ context <> []
    /\ read_first context = Ok (title, content, url)
    /\ llm env n model_eval (evaluation_prompt user_input statement content)
         = Ok response
    /\ response_text response = Ok text
    /\ judgment = Str.strip text.

(** A string of whitespace only. *)
Fixpoint all_space (s : string) : bool :=
  match s with
  | EmptyString => true
  | String c s' => Str.is_space c && all_space s'
  end.

(** [s] without its occurrences of the character [c]. *)
Fixpoint delete_char (c : ascii) (s : string) : string :=
  match s with
  | EmptyString => EmptyString
  | String x s' =>
      if Ascii.eqb c x then delete_char c s' else String x (delete_char c s')
  end.

Fixpoint contains_char (c : ascii) (s : string) : bool :=
  match s with
  | EmptyString => false
  | String x s' => Ascii.eqb c x || contains_char c s'
  end.

(** The assumption list in the words of the specification, to compare
    with [assertions_of]: the text is split on line boundaries, blank
    lines are dropped, and each remaining line is given without its
    leading bullet markers and without surrounding whitespace. *)
Fixpoint drop_bullets (s : string) : string :=
  match s with
  | EmptyString => EmptyString
  | String c s' => if Ascii.eqb c "*"%char then drop_bullets s' else s
  end.

Definition worded_assumption (line : string) : string :=
  Str.strip (drop_bullets (Str.strip line)).

Definition worded_assertions (text : string) : list string :=
  map worded_assumption
      (filter (fun line => negb (all_space line)) (Str.splitlines text)).

(* ================================================================== *)
(** ** The page: [main] *)
(* ================================================================== *)

(** [results_dict.values()] *)
Definition dict_values {V : Type} (d : PyDict.t V) : list V := map snd d.

(** What a run of the script puts on the page, in order.  [PgLink] is
    [st.markdown(f"- [{title}]({url})", unsafe_allow_html=True)], kept as
    the two values that are interpolated; [PgCore] is a call that the
    pipeline makes too (a service call, a log line, a sleep, [st.error],
    [st.success], [st.info], ...). *)
Inductive page_event : Type :=
| PgSetPageConfig (page_title layout : string)
| PgTitle (body : string)
| PgMarkdown (body : string)
| PgTextArea (label : string)
| PgButton (label key : string)
| PgSubheader (body : string)
| PgLink (title url : json)
| PgCore (ev : event).

Definition INTRO : string :=
  (Str.lines
     [ "";
       "        Welcome to the News Verification Assistant.";
       "        ";
       "        **How It Works:**";
       "        1. Extracts key assumptions from your news statement.";
       "        2. Retrieves online verification results for each assumption.";
       "        3. Evaluates each assumption using advanced generative AI.";
       "        4. Synthesizes the findings into a final verdict.";
       "        ";
       "        Enter a news statement below to verify its authenticity." ]
   ++ "        ")%string.

(** The calls [main] makes before it looks at the button. *)
Definition page_header : list page_event :=
  [ PgSetPageConfig "News Verification Assistant" "wide";
    PgTitle "News Verification Assistant";
    PgMarkdown INTRO;
    PgTextArea "Enter the statement to analyze:";
    PgButton "Verify News" "verify_news" ].

Definition EMPTY_INPUT : string :=
  "Input cannot be empty. Please provide a valid statement.".

(** The title and the url [main] reads from the first record of [value]. *)
Definition first_link (value : list json) : Exc (json * json) :=
  exc_bind (py_index value 0) (fun item =>
  exc_bind (py_get item "url" (JStr "#")) (fun url =>
  exc_bind (py_get item "title" (JStr "No Title")) (fun title =>
  Ok (title, url)))).

(** The loop of [main] over [results_dict.values()]. *)
Fixpoint source_links (values : list (list json)) : Exc unit * list page_event :=
  match values with
  | [] => (Ok tt, [])
  | value :: rest =>
      if nonempty value then
        match first_link value with
        | Ok (title, url) =>
            let (r, page) := source_links rest in (r, PgLink title url :: page)
        | Raise e => (Raise e, [])
        end
      else source_links rest
  end.

(** The call [main] shows the final evaluation with: [st.error] for
    "FAKE", [st.success] for "REAL", [st.info] otherwise. *)
Definition verdict_call (verdict : option string) : st_call :=
  match verdict with
  | Some v => if String.eqb v "FAKE" then StError
              else if String.eqb v "REAL" then StSuccess
              else StInfo
  | None => StInfo
  end.

(** [main()], one run of the script: [user_input] is what [st.text_area]
    returns and [clicked] what [st.button] returns.  The pipeline starts
    on the empty trace. *)
Definition main (env : Env) (user_input : string) (clicked : bool)
    : Exc unit * list page_event :=
  if clicked then
    if negb (Str.truthy (Str.strip user_input)) then
      (Ok tt, (page_header ++ [PgCore (EvSt StError EMPTY_INPUT)])%list)
    else
      match process_user_input env (Str.strip user_input) [] with
      | (Raise e, t) => (Raise e, (page_header ++ map PgCore t)%list)
      | (Ok (final_evaluation, results_dict), t) =>
          let verdict := check_result final_evaluation in
          let (r, links) := source_links (dict_values results_dict) in
          (r,
           (page_header ++ map PgCore t
            ++ [ PgSubheader "Overall Final Evaluation:";
                 PgCore (EvSt (verdict_call verdict) final_evaluation);
                 PgSubheader "Source URLs:" ]
            ++ links)%list)
      end
  else (Ok tt, page_header).

(** The LLM calls and searches on a page. *)
Definition is_service (pe : page_event) : bool :=
  match pe with
  | PgCore ev => is_generate ev || is_search ev
  | _ => false
  end.

Definition is_link (pe : page_event) : bool :=
  match pe with PgLink _ _ => true | _ => false end.

(* ================================================================== *)
(** ** Notions used to state the behaviour of the stages *)
(* ================================================================== *)

(** The EvidenceSet with only the first record of every evidence list. *)
Definition first_record_only (d : PyDict.t (list json)) : PyDict.t (list json) :=
  map (fun item => (fst item, firstn 1 (snd item))) d.

(** The items with their statements stripped. *)
Definition strip_statements (items : list (string * list json))
    : list (string * list json) :=
  map (fun item => (Str.strip (fst item), snd item)) items.

Definition is_sleep (ev : event) : bool :=
  match ev with EvSleep _ => true | _ => false end.

(** The LLM calls the evaluator makes for [items] when no reading raises:
    one for each item that has evidence. *)
Definition evaluation_calls (user_input : string)
    (items : list (string * list json)) : list event :=
  flat_map
    (fun item =>
       if nonempty (snd item) then
         match read_first (snd item) with
         | Ok (_, content, _) =>
             [EvGenerate model_eval
                (evaluation_prompt user_input (fst item) content)]
         | Raise _ => []
         end
       else [])
    items.

(** The first record of the evidence can be read. *)
Definition readable (item : string * list json) : bool :=
  match read_first (snd item) with Ok _ => true | Raise _ => false end.

(** A string without line boundary. *)
Fixpoint single_line (s : string) : bool :=
  match s with
  | EmptyString => true
  | String c s' => negb (Str.is_cr c || Str.is_linebreak c) && single_line s'
  end.

(** The field [key] of a record, or [default]. *)
Definition field (record : list (string * json)) (key : string) (default : json)
    : json :=
  match assoc key record with Some v => v | None => default end.

(* ================================================================== *)
(** ** Sample services *)
(* ================================================================== *)

Module Samples.

Definition reply (text : string) : Exc Response :=
  Ok (mk_response (Ok text)).

Definition timeout : exn := mk_exn OtherException "deadline exceeded".

(** Both services are down: every call raises. *)
Definition env_down : Env :=
  mk_env (fun _ _ _ => Raise timeout) (fun _ _ => Raise timeout).

(** The LLM answers with whitespace only. *)
Definition env_blank : Env :=
  mk_env (fun _ _ _ => reply ("  " ++ Str.nl ++ " "))
         (fun _ _ => Ok (mk_reply (Some []))).

(** The LLM answers, but the reply carries no readable text. *)
Definition env_no_text : Env :=
  mk_env (fun _ _ _ => Ok (mk_response (Raise (mk_exn ValueError "no valid part"))))
         (fun _ _ => Ok (mk_reply (Some []))).

(** A full run: the generator lists one assumption twice, the second
    search of the run fails, the others find one record each. *)
Definition moon_record : json :=
  JDict [ ("title", JStr "Moon");
          ("url", JStr "https://example.org/moon");
          ("content", JStr " The Moon is a rocky body. ") ].

Definition rock_record : json :=
  JDict [ ("title", JStr "Lunar samples");
          ("url", JStr "https://example.org/samples");
          ("content", JStr "Apollo samples are basalt and breccia.") ].

Definition moon_bullets : string :=
  "* Is the moon made of cheese?" ++ Str.nl ++ Str.nl
  ++ "* Has cheese been found on the moon?" ++ Str.nl
  ++ "* Is the moon made of cheese?".

(** The two assumptions [assertions_of] reads in [moon_bullets]. *)
Definition a_cheese : string := " Is the moon made of cheese?".
Definition a_found : string := " Has cheese been found on the moon?".

Definition env_moon : Env :=
  mk_env
    (fun n _ _ =>
       match n with
       | 0 => reply moon_bullets
       | 1 => reply "FALSE. The samples are rock."
       | _ => reply "Final Result: FAKE. Overall Reasoning: rock, not cheese."
       end)
    (fun n _ =>
       match n with
       | 0 => Ok (mk_reply (Some [moon_record]))
       | 1 => Raise timeout
       | _ => Ok (mk_reply (Some [rock_record]))
       end).

(** Like [env_moon], but the second search finds a record. *)
Definition env_moon_up : Env :=
  mk_env (llm env_moon)
    (fun n q =>
       match n with
       | 1 => Ok (mk_reply (Some [moon_record]))
       | _ => tavily env_moon n q
       end).

(** The LLM answers with two bullets, the second with emphasis marks. *)
Definition deepseek_bullets : string :=
  "* Does elon musk own deepseek?" ++ Str.nl
  ++ "* Is **Deepseek** a company?".

Definition env_deepseek : Env :=
  mk_env (fun _ _ _ => reply deepseek_bullets)
         (fun _ _ => Ok (mk_reply (Some []))).

(** The generator and the evaluator answer, the synthesis call raises. *)
Definition env_synth_down : Env :=
  mk_env
    (fun n _ _ =>
       match n with
       | 0 => reply moon_bullets
       | 1 => reply "FALSE. The samples are rock."
       | _ => Raise timeout
       end)
    (tavily env_moon).

(** The LLM answers as in [env_moon], no search finds anything: the
    first reply has no "results" key, the others an empty list. *)
Definition env_no_hits : Env :=
  mk_env
    (fun n _ _ =>
       match n with
       | 0 => reply moon_bullets
       | _ => reply "Final Result: REAL"
       end)
    (fun n _ =>
       match n with
       | 0 => Ok (mk_reply None)
       | _ => Ok (mk_reply (Some []))
       end).

End Samples.

(* ================================================================== *)
(** ** Facts about the string methods *)
(* ================================================================== *)

Module StrFacts.
Import Str.

Lemma append_nil_r (s : string) : s ++ "" = s.
Proof. induction s as [|c s IH]; simpl; [reflexivity | now rewrite IH]. Qed.

Lemma append_assoc (a b c : string) : (a ++ b) ++ c = a ++ b ++ c.
Proof. induction a as [|x a IH]; simpl; [reflexivity | now rewrite IH]. Qed.

Lemma lower_app (a b : string) : lower (a ++ b) = lower a ++ lower b.
Proof. induction a as [|x a IH]; simpl; [reflexivity | now rewrite IH]. Qed.

Lemma startswith_app (p post : string) : startswith p (p ++ post) = true.
Proof.
  induction p as [|a p IH]; simpl; [reflexivity |].
  now rewrite Ascii.eqb_refl, IH.
Qed.

Lemma startswith_inv (p s : string) :
  startswith p s = true -> exists post, s = p ++ post.
Proof.
  revert s; induction p as [|a p IH]; intros s H; simpl in *.
  - now exists s.
  - destruct s as [|b s]; [discriminate |].
    apply andb_true_iff in H as [Hab Hps].
    apply Ascii.eqb_eq in Hab; subst b.
    destruct (IH _ Hps) as [post ->]. now exists post.
Qed.

Lemma matched_option_map_S (m : option nat) :
  matched (option_map S m) = matched m.
Proof. now destruct m. Qed.

Lemma re_search_at_start (p s : string) :
  startswith p s = true -> matched (re_search p s) = true.
Proof. intros H. destruct s; simpl; now rewrite H. Qed.

(** [re.search] with a literal pattern succeeds exactly when the pattern
    occurs somewhere in the string. *)
Lemma re_search_occurs (p s : string) :
  matched (re_search p s) = true <-> occurs_in p s.
Proof.
  split.
  - induction s as [|c s IH]; simpl.
    + destruct (startswith p "") eqn:E; [| discriminate].
      intros _. apply startswith_inv in E as [post E].
      exists "", post. exact E.
    + destruct (startswith p (String c s)) eqn:E.
      * intros _. apply startswith_inv in E as [post E].
        exists "", post. exact E.
      * rewrite matched_option_map_S. intros H.
        destruct (IH H) as (pre & post & ->).
        now exists (String c pre), post.
  - intros (pre & post & ->).
    induction pre as [|c pre IH]; simpl.
    + apply re_search_at_start, startswith_app.
    + destruct (startswith p (String c (pre ++ p ++ post))); [reflexivity |].
      now rewrite matched_option_map_S.
Qed.

Lemma re_search_absent (p s : string) :
  matched (re_search p s) = false <-> ~ occurs_in p s.
Proof.
  rewrite <- re_search_occurs.
  destruct (matched (re_search p s)); split; intros H; try discriminate;
    try reflexivity; now contradiction H.
Qed.

(** An occurrence in the text, whatever its letter case, is an occurrence
    of its lowered form in the lowered text. *)
Lemma occurs_in_lower (m s : string) :
  occurs_in m s -> occurs_in (lower m) (lower s).
Proof.
  intros (pre & post & ->).
  exists (lower pre), (lower post). now rewrite !lower_app.
Qed.

End StrFacts.

(* ================================================================== *)
(** ** Verdict extraction: theorems *)
(* ================================================================== *)

Lemma check_result_fake (text : string) :
  Str.occurs_in "final result: fake" (Str.lower text) ->
  check_result text = Some "FAKE".
Proof.
  intros H. apply StrFacts.re_search_occurs in H.
  unfold check_result. now rewrite H.
Qed.

Lemma check_result_real (text : string) :
  ~ Str.occurs_in "final result: fake" (Str.lower text) ->
  Str.occurs_in "final result: real" (Str.lower text) ->
  check_result text = Some "REAL".
Proof.
  intros Hf Hr. apply StrFacts.re_search_absent in Hf.
  apply StrFacts.re_search_occurs in Hr.
  unfold check_result. now rewrite Hf, Hr.
Qed.

Lemma check_result_unknown (text : string) :
  ~ Str.occurs_in "final result: fake" (Str.lower text) ->
  ~ Str.occurs_in "final result: real" (Str.lower text) ->
  check_result text = None.
Proof.
  intros Hf Hr. apply StrFacts.re_search_absent in Hf, Hr.
  unfold check_result. now rewrite Hf, Hr.
Qed.

(** C1.  Verdict extraction is case-insensitive and matches anywhere:
    [check_result] depends on the text only through its lowered form; when
    the lowered text contains "final result: fake" the result is "FAKE"
    (label FAKE); otherwise when it contains "final result: real" the result
    is "REAL" (label REAL); when it contains neither the result is [None]
    (label UNKNOWN).  In particular a marker written in any letter case,
    with any text before and after it, is recognised. *)
Theorem check_result_case_insensitive_anywhere (text : string) :
  let fake := Str.occurs_in "final result: fake" (Str.lower text) in
  let real := Str.occurs_in "final result: real" (Str.lower text) in
  (fake ->
     check_result text = Some "FAKE"
     /\ verdict_label (check_result text) = FAKE)
  /\ (~ fake -> real ->
     check_result text = Some "REAL"
     /\ verdict_label (check_result text) = REAL)
  /\ (~ fake -> ~ real ->
     check_result text = None
     /\ verdict_label (check_result text) = UNKNOWN)
  /\ (forall text', Str.lower text' = Str.lower text ->
     check_result text' = check_result text)
  /\ (forall pre marker post,
     Str.lower marker = "final result: fake" ->
     check_result (pre ++ marker ++ post) = Some "FAKE").
Proof.
  cbv zeta. repeat split.
  - now apply check_result_fake.
  - now rewrite check_result_fake.
  - now apply check_result_real.
  - now rewrite check_result_real.
  - now apply check_result_unknown.
  - now rewrite check_result_unknown.
  - intros text' E. unfold check_result. now rewrite E.
  - intros pre marker post E. apply check_result_fake.
    rewrite <- E. apply StrFacts.occurs_in_lower. now exists pre, post.
Qed.

(** C4.  A text that contains both markers, each in any letter case,
    yields "FAKE": the FAKE pattern is tried first and wins. *)
Theorem check_result_both_markers_fake (text fake_marker real_marker : string) :
  Str.lower fake_marker = "final result: fake" ->
  Str.lower real_marker = "final result: real" ->
  Str.occurs_in fake_marker text ->
  Str.occurs_in real_marker text ->
  check_result text = Some "FAKE"
  /\ verdict_label (check_result text) = FAKE.
Proof.
  intros Ef _ Hf _.
  assert (H : check_result text = Some "FAKE").
  { apply check_result_fake. rewrite <- Ef.
    now apply StrFacts.occurs_in_lower. }
  now rewrite H.
Qed.

Lemma check_result_both_markers_fake_witness :
  check_result "Final Result: REAL. On reflection, FINAL RESULT: Fake"
    = Some "FAKE"
  /\ verdict_label
       (check_result "Final Result: REAL. On reflection, FINAL RESULT: Fake")
     = FAKE.
Proof.
  apply (check_result_both_markers_fake
           "Final Result: REAL. On reflection, FINAL RESULT: Fake"
           "FINAL RESULT: Fake" "Final Result: REAL").
  - reflexivity.
  - reflexivity.
  - exists "Final Result: REAL. On reflection, ", "". reflexivity.
  - exists "", ". On reflection, FINAL RESULT: Fake". reflexivity.
Defined.

(* ================================================================== *)
(** ** Running the pipeline: the generator *)
(* ================================================================== *)

(** From here on [++] is the append of lists (of traces, mostly). *)
Open Scope list_scope.

Lemma generate_calls_app (t t' : trace) :
  generate_calls (t ++ t') = (generate_calls t ++ generate_calls t')%list.
Proof. apply filter_app. Qed.

Lemma search_calls_app (t t' : trace) :
  search_calls (t ++ t') = (search_calls t ++ search_calls t')%list.
Proof. apply filter_app. Qed.

Ltac run :=
  unfold bind, ret, lift, try_except, st, logging, sleep, emit,
    generate_content_async, tavily_search.

Ltac calls :=
  repeat rewrite ?generate_calls_app, ?search_calls_app, ?length_app;
  cbn [generate_calls search_calls filter is_generate is_search
       List.length List.app];
  repeat rewrite ?app_nil_r, ?Nat.add_0_r.

(** What a run of [generate_assertions] does, by the outcome of the call. *)
Lemma generate_assertions_run (env : Env) (user_input : string) (t : trace) :
  generate_assertions env user_input t =
  match llm env (List.length (generate_calls t)) model
            (create_template user_input) with
  | Ok response =>
      match response_text response with
      | Ok text =>
          (Ok (assertions_of (Str.strip text)),
           (t ++ generator_events_ok user_input)%list)
      | Raise e => (Ok [], (t ++ generator_events_failed user_input e)%list)
      end
  | Raise e => (Ok [], (t ++ generator_events_failed user_input e)%list)
  end.
Proof.
  unfold generate_assertions, generator_events_ok, generator_events_failed.
  run. calls.
  destruct (llm env _ _ _) as [response | e]; cbn.
  - destruct (response_text response) as [text | e]; cbn;
      now rewrite <- !app_assoc.
  - now rewrite <- !app_assoc.
Qed.

(** [generate_assertions] never raises, and extends the trace by one of the
    two event lists. *)
Lemma generate_assertions_total (env : Env) (user_input : string) (t : trace) :
  exists assertions_list added,
    generate_assertions env user_input t
      = (Ok assertions_list, (t ++ added)%list)
    /\ (added = generator_events_ok user_input
        \/ exists e, added = generator_events_failed user_input e).
Proof.
  rewrite generate_assertions_run.
  destruct (llm env _ _ _) as [response | e].
  - destruct (response_text response) as [text | e]; eauto 6.
  - eauto 6.
Qed.

(* ================================================================== *)
(** ** The insertion-ordered dict *)
(* ================================================================== *)

Module PyDictFacts.
Import PyDict.

Lemma mem_In (k : string) (l : list string) : mem k l = true <-> In k l.
Proof.
  unfold mem. rewrite existsb_exists. split.
  - intros (x & Hx & E). apply String.eqb_eq in E. now subst.
  - intros H. exists k. split; [exact H | apply String.eqb_refl].
Qed.

Lemma mem_not_In (k : string) (l : list string) : mem k l = false <-> ~ In k l.
Proof.
  rewrite <- mem_In. destruct (mem k l); split; intros H;
    try discriminate; try reflexivity; now contradiction H.
Qed.

Lemma keys_set {V} (k : string) (v : V) (d : t V) :
  keys (set k v d) = if mem k (keys d) then keys d else keys d ++ [k].
Proof.
  induction d as [|[k' v'] d IH]; [reflexivity |].
  unfold keys in *. cbn [set map fst mem existsb].
  destruct (String.eqb k k') eqn:E; cbn [map fst orb].
  - reflexivity.
  - rewrite IH. fold (mem k (map fst d)). now destruct (mem k (map fst d)).
Qed.

Lemma get_set {V} (k k' : string) (v : V) (d : t V) :
  get k (set k' v d) = if String.eqb k k' then Some v else get k d.
Proof.
  unfold get. induction d as [|[k0 v0] d IH]; cbn [set assoc].
  - reflexivity.
  - destruct (String.eqb k' k0) eqn:E0; cbn [assoc].
    + apply String.eqb_eq in E0; subst k0.
      now destruct (String.eqb k k').
    + rewrite IH. destruct (String.eqb k k0) eqn:E1; [| reflexivity].
      apply String.eqb_eq in E1; subst k0.
      destruct (String.eqb k k') eqn:E2; [| reflexivity].
      apply String.eqb_eq in E2; subst k'.
      now rewrite String.eqb_refl in E0.
Qed.

Lemma keys_fold {V} (pairs : list (string * V)) (d : t V) :
  keys (fold_left put pairs d) = keys d ++ new_keys (keys d) (map fst pairs).
Proof.
  revert d; induction pairs as [|[k v] pairs IH]; intros d; cbn [fold_left map fst new_keys].
  - now rewrite app_nil_r.
  - rewrite IH. unfold put. cbn [fst snd]. rewrite keys_set.
    destruct (mem k (keys d)); [reflexivity |].
    now rewrite <- app_assoc.
Qed.

Lemma keys_of_pairs {V} (pairs : list (string * V)) :
  keys (of_pairs pairs) = new_keys [] (map fst pairs).
Proof. exact (keys_fold pairs empty). Qed.

Lemma get_fold_other {V} (k : string) (pairs : list (string * V)) (d : t V) :
  ~ In k (map fst pairs) -> get k (fold_left put pairs d) = get k d.
Proof.
  revert d; induction pairs as [|[k' v] pairs IH]; intros d H; cbn [fold_left].
  - reflexivity.
  - cbn [map fst In] in H. rewrite IH by tauto.
    unfold put. cbn [fst snd]. rewrite get_set.
    destruct (String.eqb k k') eqn:E; [| reflexivity].
    apply String.eqb_eq in E. subst. tauto.
Qed.

(** The value of a key is the one of its last pair. *)
Lemma get_of_pairs_last {V} (k : string) (v : V) (pre post : list (string * V)) :
  ~ In k (map fst post) ->
  get k (of_pairs (pre ++ (k, v) :: post)) = Some v.
Proof.
  intros H. unfold of_pairs.
  rewrite fold_left_app. cbn [fold_left].
  rewrite get_fold_other by exact H.
  unfold put. cbn [fst snd]. now rewrite get_set, String.eqb_refl.
Qed.

Lemma new_keys_In (k : string) (seen l : list string) :
  In k (new_keys seen l) <-> In k l /\ ~ In k seen.
Proof.
  revert seen; induction l as [|a l IH]; intros seen; cbn [new_keys In].
  - tauto.
  - destruct (mem a seen) eqn:E.
    + apply mem_In in E. rewrite IH. split; [tauto |].
      intros [[-> | H] Hn]; tauto.
    + apply mem_not_In in E. cbn [In]. rewrite IH, in_app_iff. cbn [In].
      split.
      * intros [-> | [H Hn]]; [tauto |]. tauto.
      * intros [[-> | H] Hn]; [tauto |].
        destruct (String.eqb_spec a k) as [-> | Hne]; [tauto |].
        right. split; [exact H |]. intros [H' | [H' | []]]; tauto.
Qed.

Lemma new_keys_NoDup (seen l : list string) : NoDup (new_keys seen l).
Proof.
  revert seen; induction l as [|a l IH]; intros seen; cbn [new_keys].
  - constructor.
  - destruct (mem a seen); [apply IH |].
    constructor; [| apply IH].
    rewrite new_keys_In, in_app_iff. cbn [In]. tauto.
Qed.

Lemma new_keys_subseq (seen l : list string) : subseq (new_keys seen l) l.
Proof.
  revert seen; induction l as [|a l IH]; intros seen; cbn [new_keys].
  - constructor.
  - destruct (mem a seen); constructor; apply IH.
Qed.

Lemma subseq_length {A} (l1 l2 : list A) :
  subseq l1 l2 -> List.length l1 <= List.length l2.
Proof. induction 1; cbn [List.length]; lia. Qed.

Lemma subseq_same_length {A} (l1 l2 : list A) :
  subseq l1 l2 -> List.length l1 = List.length l2 -> l1 = l2.
Proof.
  induction 1 as [| x l1 l2 H IH | x l1 l2 H IH]; cbn [List.length]; intros E.
  - reflexivity.
  - apply subseq_length in H. lia.
  - f_equal. apply IH. lia.
Qed.

Lemma subseq_In {A} (l1 l2 : list A) (x : A) :
  subseq l1 l2 -> In x l1 -> In x l2.
Proof. induction 1; cbn [In]; tauto. Qed.

End PyDictFacts.

(* ================================================================== *)
(** ** Running the pipeline: the fetcher *)
(* ================================================================== *)

Lemma search_calls_fetch_events (env : Env) (n : nat) (a : string) :
  search_calls (fetch_events env n a) = [EvSearch a].
Proof. unfold fetch_events. now destruct (tavily env n a). Qed.

Lemma generate_calls_fetch_events (env : Env) (n : nat) (a : string) :
  generate_calls (fetch_events env n a) = [].
Proof. unfold fetch_events. now destruct (tavily env n a). Qed.

(** [fetch_result] always returns a pair headed by its argument. *)
Lemma fetch_result_run (env : Env) (assertion : string) (t : trace) :
  fetch_result env assertion t =
  (Ok (assertion, fetch_outcome env (List.length (search_calls t)) assertion),
   t ++ fetch_events env (List.length (search_calls t)) assertion).
Proof.
  unfold fetch_result, fetch_outcome, fetch_events. run.
  destruct (tavily env _ _) as [result | e]; cbn.
  - reflexivity.
  - now rewrite <- app_assoc.
Qed.

Lemma gather_fetch_run (env : Env) (assertions : list string) (t : trace) :
  gather (map (fetch_result env) assertions) t =
  (Ok (fetched_pairs env (List.length (search_calls t)) assertions),
   t ++ fetched_events env (List.length (search_calls t)) assertions).
Proof.
  revert t; induction assertions as [|a rest IH]; intros t;
    cbn [map gather fetched_pairs fetched_events].
  - unfold ret. now rewrite app_nil_r.
  - unfold bind at 1. rewrite fetch_result_run.
    unfold bind at 1. rewrite IH.
    rewrite search_calls_app, search_calls_fetch_events, length_app.
    cbn [List.length]. rewrite Nat.add_1_r.
    unfold ret. now rewrite <- app_assoc.
Qed.

Lemma fetch_all_results_run (env : Env) (assertions : list string) (t : trace) :
  fetch_all_results env assertions t =
  (Ok (PyDict.of_pairs
         (fetched_pairs env (List.length (search_calls t)) assertions)),
   t ++ fetcher_started
     :: fetched_events env (List.length (search_calls t)) assertions
     ++ [EvSt StSuccess "Online verification results retrieved."]).
Proof.
  unfold fetch_all_results, fetcher_started.
  unfold bind at 1. unfold st at 1, emit.
  unfold bind at 1. rewrite gather_fetch_run.
  calls. run. cbn. now rewrite <- !app_assoc.
Qed.

Lemma fetched_pairs_keys (env : Env) (n : nat) (assertions : list string) :
  map fst (fetched_pairs env n assertions) = assertions.
Proof.
  revert n; induction assertions as [|a rest IH]; intros n;
    cbn [fetched_pairs map fst]; [reflexivity | now rewrite IH].
Qed.

Lemma fetched_pairs_app (env : Env) (n : nat) (pre post : list string) :
  fetched_pairs env n (pre ++ post) =
  fetched_pairs env n pre ++ fetched_pairs env (n + List.length pre) post.
Proof.
  revert n; induction pre as [|a pre IH]; intros n;
    cbn [fetched_pairs List.app List.length].
  - now rewrite Nat.add_0_r.
  - rewrite IH. do 3 f_equal. lia.
Qed.

(* ================================================================== *)
(** ** Running the pipeline: the evaluator *)
(* ================================================================== *)

(** One turn of the loop of [evaluate_assertions], branch by branch.  The
    trace matters only through the number of LLM calls made so far. *)
Lemma evaluate_loop_cons (env : Env) (user_input statement : string)
    (context : list json) (rest : list (string * list json))
    (acc : list string) (t : trace) :
  evaluate_loop env user_input ((statement, context) :: rest) acc t =
  if negb (nonempty context) then
    evaluate_loop env user_input rest acc (t ++ skipped_events statement)
  else
    match read_first context with
    | Raise e =>
        if is_IndexError_or_KeyError e
        then evaluate_loop env user_input rest acc
               (t ++ malformed_events statement e)
        else (Raise e, t)
    | Ok (title, content, url) =>
        let prompt := evaluation_prompt user_input statement content in
        match llm env (List.length (generate_calls t)) model_eval prompt with
        | Raise e =>
            evaluate_loop env user_input rest acc
              (t ++ call_failed_events prompt statement e)
        | Ok response =>
            match response_text response with
            | Raise e =>
                evaluate_loop env user_input rest acc
                  (t ++ text_failed_events prompt statement e)
            | Ok text =>
                evaluate_loop env user_input rest (acc ++ [Str.strip text])
                  (t ++ evaluated_events prompt statement text url)
            end
        end
    end.
Proof.
  cbn [evaluate_loop].
  destruct (negb (nonempty context)).
  - run. unfold skipped_events. now rewrite <- app_assoc.
  - unfold bind at 1. unfold try_except at 1. unfold bind at 1, lift at 1.
    destruct (read_first context) as [[[title content] url] | e].
    + cbv zeta. unfold ret at 1. unfold bind at 1, try_except at 1.
      unfold bind at 1, generate_content_async at 1.
      destruct (llm env _ _ _) as [response | e].
      * unfold bind at 1, st at 1, emit at 1.
        unfold bind at 1, lift at 1.
        destruct (response_text response) as [text | e].
        -- unfold bind at 1, st at 1, emit at 1.
           unfold bind at 1, lift at 1.
           unfold bind at 1, sleep at 1, emit at 1. unfold ret at 1.
           unfold evaluated_events. now rewrite <- !app_assoc.
        -- unfold is_Exception.
           unfold bind at 1, logging at 1, emit at 1.
           unfold bind at 1, st at 1, emit at 1. unfold ret at 1.
           unfold text_failed_events, evaluation_failed.
           now rewrite <- !app_assoc.
      * unfold is_Exception.
        unfold bind at 1, logging at 1, emit at 1.
        unfold bind at 1, st at 1, emit at 1. unfold ret at 1.
        unfold call_failed_events, evaluation_failed.
        now rewrite <- !app_assoc.
    + destruct (is_IndexError_or_KeyError e).
      * unfold bind at 1, logging at 1, emit at 1.
        unfold bind at 1, st at 1, emit at 1. unfold ret at 1.
        unfold malformed_events. now rewrite <- !app_assoc.
      * reflexivity.
Qed.

(* ================================================================== *)
(** ** The orchestrator when no assumption comes back *)
(* ================================================================== *)

Lemma generator_events_ok_calls (user_input : string) :
  generate_calls (generator_events_ok user_input)
    = [EvGenerate model (create_template user_input)]
  /\ search_calls (generator_events_ok user_input) = [].
Proof. split; reflexivity. Qed.

Lemma generator_events_failed_calls (user_input : string) (e : exn) :
  generate_calls (generator_events_failed user_input e)
    = [EvGenerate model (create_template user_input)]
  /\ search_calls (generator_events_failed user_input e) = [].
Proof. split; reflexivity. Qed.

(** The events of the generator are not the opening event of any later
    stage. *)
Lemma generator_events_no_later_stage (user_input : string) (added : trace) :
  added = generator_events_ok user_input
  \/ (exists e, added = generator_events_failed user_input e) ->
  ~ In fetcher_started added
  /\ ~ In evaluator_started added
  /\ ~ In synthesizer_started added.
Proof.
  intros [-> | [e ->]];
    unfold generator_events_ok, generator_events_failed, fetcher_started,
      evaluator_started, synthesizer_started; cbn [In];
    repeat split; intros H;
    repeat (destruct H as [H | H]; [discriminate H |]); exact H.
Qed.

(** Each later stage, when it is run, leaves its opening event. *)
Lemma fetch_all_results_opening (env : Env) (assertions : list string) (t : trace) :
  In fetcher_started (snd (fetch_all_results env assertions t)).
Proof.
  rewrite fetch_all_results_run. cbn [snd].
  apply in_or_app. right. now left.
Qed.

Lemma asyncprocess_and_evaluate_opening (env : Env) (reasoning_list : list string)
    (t : trace) :
  In synthesizer_started (snd (asyncprocess_and_evaluate env reasoning_list t)).
Proof.
  unfold asyncprocess_and_evaluate, synthesizer_started. run.
  destruct (llm env _ _ _) as [response | e]; cbn.
  - destruct (response_text response); cbn [snd];
      rewrite <- app_assoc; apply in_or_app; right; now left.
  - rewrite <- app_assoc; apply in_or_app; right; now left.
Qed.

(** C2.  When the generator returns the empty list, [process_user_input]
    returns at once the message "No assertions generated. Cannot proceed."
    with the empty dict, and its trace is the trace of the generator alone:
    no search was made, the only LLM call is the generator's, and the
    opening events of [fetch_all_results], [evaluate_assertions] and
    [asyncprocess_and_evaluate] are absent, so none of them was called. *)
Theorem process_user_input_no_assertions (env : Env) (user_input : string)
    (t t1 : trace) :
  generate_assertions env user_input t = (Ok [], t1) ->
  process_user_input env user_input t
    = (Ok ("No assertions generated. Cannot proceed."%string, PyDict.empty), t1)
  /\ exists added,
       t1 = t ++ added
       /\ search_calls added = []
       /\ generate_calls added = [EvGenerate model (create_template user_input)]
       /\ ~ In fetcher_started added
       /\ ~ In evaluator_started added
       /\ ~ In synthesizer_started added.
Proof.
  intros H. split.
  - unfold process_user_input. unfold bind at 1. now rewrite H.
  - destruct (generate_assertions_total env user_input t)
      as (l & added & E & Hadded).
    rewrite H in E. injection E as _ ->. exists added.
    split; [reflexivity |].
    destruct (generator_events_no_later_stage user_input added Hadded)
      as (Hf & He & Hs).
    destruct Hadded as [-> | [e ->]]; repeat split; assumption.
Qed.

Lemma process_user_input_no_assertions_witness :
  let user_input := "The moon is made of cheese."%string in
  let t1 := generator_events_ok user_input in
  process_user_input Samples.env_blank user_input []
    = (Ok ("No assertions generated. Cannot proceed."%string, PyDict.empty), t1)
  /\ exists added,
       t1 = [] ++ added
       /\ search_calls added = []
       /\ generate_calls added = [EvGenerate model (create_template user_input)]
       /\ ~ In fetcher_started added
       /\ ~ In evaluator_started added
       /\ ~ In synthesizer_started added.
Proof.
  cbv zeta.
  apply (process_user_input_no_assertions Samples.env_blank
           "The moon is made of cheese." []
           (generator_events_ok "The moon is made of cheese.")).
  vm_compute. reflexivity.
Defined.

(** C6.  When the LLM call of [generate_assertions] raises, or the text of
    its reply cannot be read, [generate_assertions] returns the empty list
    and does not raise; the LLM was called once (no retry); and
    [process_user_input] returns the no-assertions message with the empty
    dict instead of raising. *)
Theorem generate_assertions_llm_failure (env : Env) (user_input : string)
    (t : trace) (e : exn) :
  let n := List.length (generate_calls t) in
  let template := create_template user_input in
  (llm env n model template = Raise e
   \/ exists response,
        llm env n model template = Ok response
        /\ response_text response = Raise e) ->
  let t1 := t ++ generator_events_failed user_input e in
  generate_assertions env user_input t = (Ok [], t1)
  /\ generate_calls t1 = generate_calls t ++ [EvGenerate model template]
  /\ process_user_input env user_input t
       = (Ok (NO_ASSERTIONS, PyDict.empty), t1).
Proof.
  intros n template H t1.
  assert (G : generate_assertions env user_input t = (Ok [], t1)).
  { rewrite generate_assertions_run. fold n template.
    destruct H as [-> | (response & -> & ->)]; reflexivity. }
  repeat split.
  - exact G.
  - unfold t1. now rewrite generate_calls_app.
  - unfold process_user_input. unfold bind at 1. now rewrite G.
Qed.

Lemma generate_assertions_llm_failure_witness :
  let user_input := "The moon is made of cheese."%string in
  let t1 := [] ++ generator_events_failed user_input Samples.timeout in
  generate_assertions Samples.env_down user_input [] = (Ok [], t1)
  /\ generate_calls t1
       = generate_calls [] ++ [EvGenerate model (create_template user_input)]
  /\ process_user_input Samples.env_down user_input []
       = (Ok (NO_ASSERTIONS, PyDict.empty), t1).
Proof.
  cbv zeta.
  apply (generate_assertions_llm_failure Samples.env_down
           "The moon is made of cheese." [] Samples.timeout).
  left. reflexivity.
Defined.

(* ================================================================== *)
(** ** The EvidenceSet built by the fetcher *)
(* ================================================================== *)

Lemma fetch_all_results_keys (env : Env) (assertions : list string) (t : trace) :
  exists results_dict t',
    fetch_all_results env assertions t = (Ok results_dict, t')
    /\ results_dict
         = PyDict.of_pairs
             (fetched_pairs env (List.length (search_calls t)) assertions)
    /\ PyDict.keys results_dict = new_keys [] assertions.
Proof.
  rewrite fetch_all_results_run. do 2 eexists.
  split; [reflexivity |]. split; [reflexivity |].
  now rewrite PyDictFacts.keys_of_pairs, fetched_pairs_keys.
Qed.

(** C3.  When the generator returns a non-empty list of assumptions,
    [fetch_all_results] returns (and never raises) an EvidenceSet whose keys
    are the assumptions with the order kept and nothing added: the keys
    are a subsequence of the assumption list, every key is one of the
    assumptions, no key occurs twice, and every assumption is a key.  That
    dict is the one [process_user_input] returns. *)
Theorem evidence_keys_from_generator (env : Env) (user_input : string)
    (t t1 : trace) (assertions : list string) :
  generate_assertions env user_input t = (Ok assertions, t1) ->
  assertions <> [] ->
  exists results_dict t2,
    fetch_all_results env assertions t1 = (Ok results_dict, t2)
    /\ subseq (PyDict.keys results_dict) assertions
    /\ (forall k, In k (PyDict.keys results_dict) -> In k assertions)
    /\ NoDup (PyDict.keys results_dict)
    /\ (forall a, In a assertions -> In a (PyDict.keys results_dict))
    /\ (forall final d t3,
          process_user_input env user_input t = (Ok (final, d), t3) ->
          d = results_dict).
Proof.
  intros G Hne.
  destruct (fetch_all_results_keys env assertions t1)
    as (results_dict & t2 & F & _ & K).
  exists results_dict, t2. split; [exact F |]. rewrite K.
  split; [apply PyDictFacts.new_keys_subseq |].
  split; [intros k Hk; now apply PyDictFacts.new_keys_In in Hk |].
  split; [apply PyDictFacts.new_keys_NoDup |].
  split; [intros a Ha; apply PyDictFacts.new_keys_In; now split |].
  intros final d t3. unfold process_user_input.
  unfold bind at 1. rewrite G.
  destruct assertions as [|a rest]; [now contradiction Hne |].
  cbn [nonempty negb]. unfold bind at 1. rewrite F.
  unfold bind at 1.
  destruct (evaluate_assertions env user_input results_dict t2)
    as [[eval_results | e] t4]; [| discriminate].
  unfold bind at 1.
  destruct (asyncprocess_and_evaluate env eval_results t4)
    as [[final_evaluation | e] t5]; [| discriminate].
  unfold ret. intros E. now injection E as _ <- _.
Qed.

Lemma evidence_keys_from_generator_witness :
  exists results_dict t2,
    fetch_all_results Samples.env_moon
      (assertions_of Samples.moon_bullets)
      (generator_events_ok "The moon is made of cheese.")
      = (Ok results_dict, t2)
    /\ subseq (PyDict.keys results_dict) (assertions_of Samples.moon_bullets)
    /\ (forall k, In k (PyDict.keys results_dict) ->
                  In k (assertions_of Samples.moon_bullets))
    /\ NoDup (PyDict.keys results_dict)
    /\ (forall a, In a (assertions_of Samples.moon_bullets) ->
                  In a (PyDict.keys results_dict))
    /\ (forall final d t3,
          process_user_input Samples.env_moon "The moon is made of cheese." []
            = (Ok (final, d), t3) ->
          d = results_dict).
Proof.
  apply (evidence_keys_from_generator Samples.env_moon
           "The moon is made of cheese." []
           (generator_events_ok "The moon is made of cheese.")
           (assertions_of Samples.moon_bullets)).
  - vm_compute. reflexivity.
  - vm_compute. discriminate.
Defined.

(* ================================================================== *)
(** ** A failed search *)
(* ================================================================== *)

(** Pairs that agree but for the evidence of [assertion] give dicts that
    agree on every other key. *)
Lemma get_fold_agree {V} (assertion k : string)
    (pairs pairs' : list (string * V)) (d d' : PyDict.t V) :
  Forall2 (fun p p' => fst p = fst p' /\ (fst p <> assertion -> snd p = snd p'))
          pairs pairs' ->
  k <> assertion ->
  PyDict.get k d = PyDict.get k d' ->
  PyDict.get k (fold_left PyDict.put pairs d)
    = PyDict.get k (fold_left PyDict.put pairs' d').
Proof.
  intros H Hk. revert d d'.
  induction H as [| [k1 v1] [k2 v2] pairs pairs' [Efst Esnd] _ IH];
    intros d d' E; cbn [fold_left]; [exact E |].
  cbn [fst snd] in *. subst k2. apply IH.
  unfold PyDict.put. cbn [fst snd]. rewrite !PyDictFacts.get_set.
  destruct (String.eqb_spec k k1) as [-> | _]; [| exact E].
  now rewrite Esnd.
Qed.

Lemma fetched_pairs_agree (env env' : Env) (n : nat) (assertion : string)
    (assertions : list string) (m : nat) :
  same_searches_except n env env' ->
  (forall i a, nth_error assertions i = Some a -> m + i = n -> a = assertion) ->
  Forall2 (fun p p' => fst p = fst p' /\ (fst p <> assertion -> snd p = snd p'))
          (fetched_pairs env m assertions) (fetched_pairs env' m assertions).
Proof.
  intros Hsame. revert m.
  induction assertions as [|a rest IH]; intros m Hat; cbn [fetched_pairs];
    constructor.
  - cbn [fst snd]. split; [reflexivity |]. intros Hne.
    unfold fetch_outcome.
    destruct (Nat.eq_dec m n) as [E | E].
    + contradiction Hne. apply (Hat 0); [reflexivity | lia].
    + now rewrite (Hsame m a E).
  - apply IH. intros i b Hi E. apply (Hat (S i)); [exact Hi | lia].
Qed.

(** C7.  When the search made by [fetch_result] raises, [fetch_result]
    returns the pair of the assertion and the empty list and does not
    raise.  In [fetch_all_results] the failure stays with that assumption:
    the call still returns a dict, the failed assumption (when it is not
    fetched again later) maps to the empty list, and every other key has
    the value it has in any run whose searches differ in the failed one
    only. *)
Theorem fetch_failure_is_local (env : Env) (pre post : list string)
    (assertion : string) (t : trace) (e : exn) :
  let n := List.length (search_calls t) + List.length pre in
  tavily env n assertion = Raise e ->
  (forall t0, List.length (search_calls t0) = n ->
     fetch_result env assertion t0
       = (Ok (assertion, []),
          t0 ++ [ EvSearch assertion;
                  EvLog LogError
                    ("Error fetching search results for '" ++ assertion
                     ++ "': " ++ exn_text e)%string ]))
  /\ exists results_dict t',
       fetch_all_results env (pre ++ assertion :: post) t
         = (Ok results_dict, t')
       /\ (~ In assertion post ->
           PyDict.get assertion results_dict = Some [])
       /\ (forall env', same_searches_except n env env' ->
           exists results_dict' t'',
             fetch_all_results env' (pre ++ assertion :: post) t
               = (Ok results_dict', t'')
             /\ forall k, k <> assertion ->
                  PyDict.get k results_dict' = PyDict.get k results_dict).
Proof.
  intros n H. split.
  - intros t0 E. rewrite fetch_result_run, E.
    unfold fetch_outcome, fetch_events. now rewrite H.
  - rewrite fetch_all_results_run. do 2 eexists.
    split; [reflexivity |]. split.
    + intros Hpost. rewrite fetched_pairs_app. cbn [fetched_pairs].
      unfold fetch_outcome. fold n. rewrite H.
      apply PyDictFacts.get_of_pairs_last.
      now rewrite fetched_pairs_keys.
    + intros env' Hsame. rewrite fetch_all_results_run. do 2 eexists.
      split; [reflexivity |]. intros k Hk. symmetry.
      apply get_fold_agree with (assertion := assertion);
        [| exact Hk | reflexivity].
      apply fetched_pairs_agree with (n := n); [exact Hsame |].
      intros i a Hi E.
      assert (i = List.length pre) by (unfold n in E; lia). subst i.
      rewrite nth_error_app2, Nat.sub_diag in Hi by lia.
      cbn in Hi. now injection Hi as <-.
Qed.

Lemma fetch_failure_is_local_witness :
  let env := Samples.env_moon in
  let assertion := Samples.a_found in
  let pre := [Samples.a_cheese] in
  let post := [Samples.a_cheese] in
  (forall t0, List.length (search_calls t0) = 1 ->
     fetch_result env assertion t0
       = (Ok (assertion, []),
          t0 ++ [ EvSearch assertion;
                  EvLog LogError
                    ("Error fetching search results for '" ++ assertion
                     ++ "': " ++ exn_text Samples.timeout)%string ]))
  /\ exists results_dict t',
       fetch_all_results env (pre ++ assertion :: post) []
         = (Ok results_dict, t')
       /\ (~ In assertion post ->
           PyDict.get assertion results_dict = Some [])
       /\ (forall env', same_searches_except 1 env env' ->
           exists results_dict' t'',
             fetch_all_results env' (pre ++ assertion :: post) []
               = (Ok results_dict', t'')
             /\ forall k, k <> assertion ->
                  PyDict.get k results_dict' = PyDict.get k results_dict).
Proof.
  cbv zeta.
  apply (fetch_failure_is_local Samples.env_moon [Samples.a_cheese]
           [Samples.a_cheese] Samples.a_found [] Samples.timeout).
  reflexivity.
Defined.

(* ================================================================== *)
(** ** Duplicate assumptions *)
(* ================================================================== *)

Lemma new_keys_shorter (l : list string) :
  ~ NoDup l -> List.length (new_keys [] l) < List.length l.
Proof.
  intros H.
  pose proof (PyDictFacts.new_keys_subseq [] l) as Hsub.
  pose proof (PyDictFacts.subseq_length _ _ Hsub) as Hle.
  destruct (Nat.eq_dec (List.length (new_keys [] l)) (List.length l)) as [E | E];
    [| lia].
  contradiction H.
  rewrite <- (PyDictFacts.subseq_same_length _ _ Hsub E).
  apply PyDictFacts.new_keys_NoDup.
Qed.

Lemma twice_not_NoDup (l1 l2 l3 : list string) (a : string) :
  ~ NoDup (l1 ++ a :: l2 ++ a :: l3).
Proof.
  intros H. apply NoDup_remove_2 in H. apply H.
  rewrite !in_app_iff. cbn [In]. tauto.
Qed.

(** C9.  When an assumption occurs more than once in the list given to
    [fetch_all_results], the EvidenceSet has one key for it, its value is
    the evidence fetched for its last occurrence, and the EvidenceSet has
    strictly fewer entries than the list has elements. *)
Theorem duplicate_assertions_collapse (env : Env) (l1 l2 l3 : list string)
    (a : string) (t : trace) :
  ~ In a l3 ->
  let assertions := l1 ++ a :: l2 ++ a :: l3 in
  let last := List.length (search_calls t) + List.length l1 + 1 + List.length l2 in
  exists results_dict t',
    fetch_all_results env assertions t = (Ok results_dict, t')
    /\ count_occ string_dec (PyDict.keys results_dict) a = 1
    /\ PyDict.get a results_dict = Some (fetch_outcome env last a)
    /\ List.length (PyDict.items results_dict) < List.length assertions.
Proof.
  intros Hlast assertions last.
  destruct (fetch_all_results_keys env assertions t)
    as (results_dict & t' & F & D & K).
  exists results_dict, t'. split; [exact F |]. split; [| split].
  - apply NoDup_count_occ'.
    + rewrite K. apply PyDictFacts.new_keys_NoDup.
    + rewrite K. apply PyDictFacts.new_keys_In. split; [| tauto].
      unfold assertions. rewrite in_app_iff. cbn [In]. tauto.
  - rewrite D. unfold assertions.
    replace (l1 ++ a :: l2 ++ a :: l3) with ((l1 ++ a :: l2) ++ a :: l3)
      by now rewrite <- app_assoc.
    rewrite fetched_pairs_app. cbn [fetched_pairs].
    rewrite PyDictFacts.get_of_pairs_last
      by now rewrite fetched_pairs_keys.
    do 2 f_equal. rewrite length_app. cbn [List.length]. unfold last. lia.
  - replace (List.length (PyDict.items results_dict))
      with (List.length (PyDict.keys results_dict))
      by apply length_map.
    rewrite K. apply new_keys_shorter, twice_not_NoDup.
Qed.

Lemma duplicate_assertions_collapse_witness :
  let assertions := [Samples.a_cheese; Samples.a_found; Samples.a_cheese] in
  exists results_dict t',
    fetch_all_results Samples.env_moon assertions [] = (Ok results_dict, t')
    /\ count_occ string_dec (PyDict.keys results_dict) Samples.a_cheese = 1
    /\ PyDict.get Samples.a_cheese results_dict
         = Some (fetch_outcome Samples.env_moon 2 Samples.a_cheese)
    /\ List.length (PyDict.items results_dict) < List.length assertions.
Proof.
  cbv zeta.
  apply (duplicate_assertions_collapse Samples.env_moon []
           [Samples.a_found] [] Samples.a_cheese []).
  intros [].
Defined.

Example moon_evidence_set :
  fst (fetch_all_results Samples.env_moon
         (assertions_of Samples.moon_bullets) [])
  = Ok [ (Samples.a_cheese, [Samples.rock_record]); (Samples.a_found, []) ].
Proof. vm_compute. reflexivity. Qed.

(* ================================================================== *)
(** ** Assumptions without evidence *)
(* ================================================================== *)

Lemma evaluation_call_of_cons (user_input : string) (item : string * list json)
    (items : list (string * list json)) (ev : event) :
  evaluation_call_of user_input items ev ->
  evaluation_call_of user_input (item :: items) ev.
Proof.
  intros (s & c & ti & co & u & H & R). exists s, c, ti, co, u.
  split; [now right | exact R].
Qed.

Lemma judgment_of_cons (env : Env) (user_input : string)
    (item : string * list json) (items : list (string * list json))
    (judgment : string) :
  judgment_of env user_input items judgment ->
  judgment_of env user_input (item :: items) judgment.
Proof.
  intros (s & c & ti & co & u & n & r & tx & H & R).
  exists s, c, ti, co, u, n, r, tx. split; [now right | exact R].
Qed.

Lemma nonempty_not_nil {A} (l : list A) : nonempty l = true -> l <> [].
Proof. destruct l; [discriminate | discriminate]. Qed.

Ltac flat :=
  unfold generate_calls, search_calls, skipped_events, malformed_events,
    call_failed_events, text_failed_events, evaluated_events,
    evaluation_failed in *;
  rewrite ?filter_app;
  cbn [filter is_generate is_search List.app List.length] in *.

Ltac widen :=
  match goal with
  | H : Forall (evaluation_call_of _ _) ?l |- Forall (evaluation_call_of _ _) ?l =>
      eapply Forall_impl; [| exact H]; apply evaluation_call_of_cons
  | H : Forall (judgment_of _ _ _) ?l |- Forall (judgment_of _ _ _) ?l =>
      eapply Forall_impl; [| exact H]; apply judgment_of_cons
  end.

(** What the loop of [evaluate_assertions] adds to the trace and to the
    list of judgments. *)
Lemma evaluate_loop_sound (env : Env) (user_input : string)
    (items : list (string * list json)) :
  forall (acc : list string) (t : trace),
  exists added r,
    evaluate_loop env user_input items acc t = (r, t ++ added)
    /\ search_calls added = []
    /\ Forall (evaluation_call_of user_input items) (generate_calls added)
    /\ List.length (generate_calls added)
         <= List.length (filter has_evidence items)
    /\ (forall l, r = Ok l ->
          exists new,
            l = acc ++ new
            /\ Forall (judgment_of env user_input items) new
            /\ List.length new <= List.length (generate_calls added)).
Proof.
  induction items as [|[statement context] rest IH]; intros acc t.
  - exists [], (Ok acc). cbn. rewrite app_nil_r.
    repeat split; try constructor.
    intros l E. injection E as <-. exists []. rewrite app_nil_r.
    repeat split; constructor.
  - rewrite evaluate_loop_cons. cbn [filter].
    change (has_evidence (statement, context)) with (nonempty context).
    destruct (nonempty context) eqn:Hne; cbn [negb].
    2:{ (* no evidence: skipped *)
      destruct (IH acc (t ++ skipped_events statement))
        as (added & r & Hrun & Hs & Hc & Hn & Hj).
      exists (skipped_events statement ++ added), r.
      rewrite app_assoc. split; [exact Hrun |]. clear Hrun. flat.
      split; [exact Hs |]. split; [widen |]. split; [exact Hn |].
      intros l E. destruct (Hj l E) as (new & -> & Hnew & Hlen).
      exists new. split; [reflexivity |]. split; [widen | exact Hlen]. }
    apply nonempty_not_nil in Hne.
    destruct (read_first context) as [[[title content] url] | e] eqn:R.
    + cbv zeta.
      set (prompt := evaluation_prompt user_input statement content).
      assert (Hcall : evaluation_call_of user_input
                        ((statement, context) :: rest)
                        (EvGenerate model_eval prompt)).
      { exists statement, context, title, content, url.
        repeat split; [now left | exact Hne | exact R]. }
      destruct (llm env _ model_eval prompt) as [response | e] eqn:L.
      * destruct (response_text response) as [text | e] eqn:T.
        -- (* evaluated *)
           destruct (IH (acc ++ [Str.strip text])
                        (t ++ evaluated_events prompt statement text url))
             as (added & r & Hrun & Hs & Hc & Hn & Hj).
           exists (evaluated_events prompt statement text url ++ added), r.
           rewrite app_assoc. split; [exact Hrun |]. clear Hrun.
           assert (Hjudged : judgment_of env user_input
                               ((statement, context) :: rest) (Str.strip text)).
           { exists statement, context, title, content, url.
             eexists _, response, text.
             repeat split; [now left | exact Hne | exact R | exact L | exact T]. }
           flat.
           split; [exact Hs |].
           split; [constructor; [exact Hcall | widen] |].
           split; [lia |].
           intros l E. destruct (Hj l E) as (new & -> & Hnew & Hlen).
           exists (Str.strip text :: new). rewrite <- app_assoc.
           split; [reflexivity |].
           split; [constructor; [exact Hjudged | widen] |].
           cbn [List.length]. lia.
        -- (* the text of the reply could not be read *)
           destruct (IH acc (t ++ text_failed_events prompt statement e))
             as (added & r & Hrun & Hs & Hc & Hn & Hj).
           exists (text_failed_events prompt statement e ++ added), r.
           rewrite app_assoc. split; [exact Hrun |]. clear Hrun. flat.
           split; [exact Hs |].
           split; [constructor; [exact Hcall | widen] |].
           split; [lia |].
           intros l E. destruct (Hj l E) as (new & -> & Hnew & Hlen).
           exists new. split; [reflexivity |]. split; [widen | lia].
      * (* the LLM call raised *)
        destruct (IH acc (t ++ call_failed_events prompt statement e))
          as (added & r & Hrun & Hs & Hc & Hn & Hj).
        exists (call_failed_events prompt statement e ++ added), r.
        rewrite app_assoc. split; [exact Hrun |]. clear Hrun. flat.
        split; [exact Hs |].
        split; [constructor; [exact Hcall | widen] |].
        split; [lia |].
        intros l E. destruct (Hj l E) as (new & -> & Hnew & Hlen).
        exists new. split; [reflexivity |]. split; [widen | lia].
    + destruct (is_IndexError_or_KeyError e).
      * (* the first record could not be read *)
        destruct (IH acc (t ++ malformed_events statement e))
          as (added & r & Hrun & Hs & Hc & Hn & Hj).
        exists (malformed_events statement e ++ added), r.
        rewrite app_assoc. split; [exact Hrun |]. clear Hrun. flat.
        split; [exact Hs |]. split; [widen |]. split; [lia |].
        intros l E. destruct (Hj l E) as (new & -> & Hnew & Hlen).
        exists new. split; [reflexivity |]. split; [widen | exact Hlen].
      * exists [], (Raise e). rewrite app_nil_r.
        split; [reflexivity |]. cbn.
        split; [reflexivity |]. split; [constructor |]. split; [lia |].
        intros l E. discriminate E.
Qed.

(** The judgments do not change when the items without evidence are
    taken out of the EvidenceSet. *)
Lemma evaluate_loop_filter (env : Env) (user_input : string)
    (items : list (string * list json)) :
  forall (acc : list string) (t1 t2 : trace),
  List.length (generate_calls t1) = List.length (generate_calls t2) ->
  fst (evaluate_loop env user_input items acc t1)
  = fst (evaluate_loop env user_input (filter has_evidence items) acc t2).
Proof.
  induction items as [|[statement context] rest IH]; intros acc t1 t2 H.
  - reflexivity.
  - cbn [filter].
    change (has_evidence (statement, context)) with (nonempty context).
    destruct (nonempty context) eqn:Hne.
    + rewrite !evaluate_loop_cons, Hne, H. cbn [negb].
      destruct (read_first context) as [[[title content] url] | e].
      * cbv zeta.
        destruct (llm env _ _ _) as [response | e];
          [destruct (response_text response) as [text | e] |];
          apply IH; rewrite !generate_calls_app, !length_app; now rewrite H.
      * destruct (is_IndexError_or_KeyError e); [| reflexivity].
        apply IH. rewrite !generate_calls_app, !length_app. now rewrite H.
    + rewrite evaluate_loop_cons, Hne. cbn [negb].
      apply IH. rewrite generate_calls_app, length_app. cbn. lia.
Qed.

(** [evaluate_assertions] in terms of its loop. *)
Lemma evaluate_assertions_run (env : Env) (user_input : string)
    (results_dict : PyDict.t (list json)) (t : trace) :
  evaluate_assertions env user_input results_dict t =
  match evaluate_loop env user_input (PyDict.items results_dict) []
          (t ++ [evaluator_started]) with
  | (Ok eval_response_list, t') =>
      (Ok eval_response_list,
       t' ++ [EvSt StSuccess "All key assumptions evaluated."])
  | (Raise e, t') => (Raise e, t')
  end.
Proof.
  unfold evaluate_assertions, evaluator_started. run.
  destruct (evaluate_loop _ _ _ _ _) as [[l | e] t']; reflexivity.
Qed.

Lemma evaluate_assertions_opening (env : Env) (user_input : string)
    (results_dict : PyDict.t (list json)) (t : trace) :
  In evaluator_started (snd (evaluate_assertions env user_input results_dict t)).
Proof.
  rewrite evaluate_assertions_run.
  destruct (evaluate_loop_sound env user_input (PyDict.items results_dict) []
              (t ++ [evaluator_started])) as (added & r & -> & _).
  destruct r; cbn [snd]; rewrite !in_app_iff; cbn [In]; tauto.
Qed.

(** C5.  [evaluate_assertions] makes its LLM calls only for assumptions
    that have evidence, at most one for each; every judgment it returns is
    the stripped reply to the call made for an assumption that has
    evidence; an assumption whose evidence is empty is passed over with two
    warnings before any call; and the result is the one obtained from the
    EvidenceSet without the assumptions that have no evidence. *)
Theorem evaluate_assertions_skips_empty_evidence (env : Env)
    (user_input : string) (results_dict : PyDict.t (list json)) (t : trace) :
  let items := PyDict.items results_dict in
  exists added r,
    evaluate_assertions env user_input results_dict t = (r, t ++ added)
    /\ Forall (evaluation_call_of user_input items) (generate_calls added)
    /\ List.length (generate_calls added)
         <= List.length (filter has_evidence items)
    /\ (forall judgments, r = Ok judgments ->
          Forall (judgment_of env user_input items) judgments
          /\ List.length judgments <= List.length (filter has_evidence items))
    /\ fst (evaluate_assertions env user_input (filter has_evidence items) t) = r
    /\ (forall statement rest acc t0,
          evaluate_loop env user_input ((statement, []) :: rest) acc t0
          = evaluate_loop env user_input rest acc
              (t0 ++ skipped_events statement)).
Proof.
  intros items. unfold PyDict.items in items. subst items.
  assert (Hfilter :
    fst (evaluate_assertions env user_input
           (filter has_evidence results_dict) t)
    = fst (evaluate_assertions env user_input results_dict t)).
  { rewrite !evaluate_assertions_run. unfold PyDict.items.
    pose proof (evaluate_loop_filter env user_input results_dict []
                  (t ++ [evaluator_started]) (t ++ [evaluator_started])
                  eq_refl) as E.
    destruct (evaluate_loop env user_input results_dict [] _)
      as [[l1 | e1] t1];
      destruct (evaluate_loop env user_input
                  (filter has_evidence results_dict) [] _)
        as [[l2 | e2] t2]; cbn [fst] in *; congruence. }
  destruct (evaluate_loop_sound env user_input results_dict []
              (t ++ [evaluator_started]))
    as (added & r & Hrun & Hs & Hc & Hn & Hj).
  destruct r as [l | e].
  - assert (Hres : evaluate_assertions env user_input results_dict t
                   = (Ok l, t ++ evaluator_started :: added
                        ++ [EvSt StSuccess "All key assumptions evaluated."])).
    { rewrite evaluate_assertions_run. unfold PyDict.items. rewrite Hrun.
      now rewrite <- !app_assoc. }
    rewrite Hres in Hfilter. cbn [fst] in Hfilter.
    exists (evaluator_started :: added
            ++ [EvSt StSuccess "All key assumptions evaluated."]), (Ok l).
    split; [exact Hres |].
    replace (generate_calls (evaluator_started :: added ++ _))
      with (generate_calls added)
      by (unfold generate_calls, evaluator_started; cbn [filter is_generate];
          rewrite filter_app; cbn; now rewrite app_nil_r).
    split; [exact Hc |]. split; [exact Hn |].
    split; [| split; [exact Hfilter |]].
    + intros judgments E. destruct (Hj _ E) as (new & -> & Hnew & Hlen).
      split; [exact Hnew | cbn [List.app]; lia].
    + intros. now rewrite evaluate_loop_cons.
  - assert (Hres : evaluate_assertions env user_input results_dict t
                   = (Raise e, t ++ evaluator_started :: added)).
    { rewrite evaluate_assertions_run. unfold PyDict.items. rewrite Hrun.
      now rewrite <- !app_assoc. }
    rewrite Hres in Hfilter. cbn [fst] in Hfilter.
    exists (evaluator_started :: added), (Raise e).
    split; [exact Hres |].
    change (generate_calls (evaluator_started :: added))
      with (generate_calls added).
    split; [exact Hc |]. split; [exact Hn |].
    split; [| split; [exact Hfilter |]].
    + intros judgments E. discriminate E.
    + intros. now rewrite evaluate_loop_cons.
Qed.

(* ================================================================== *)
(** ** The handler for malformed evidence *)
(* ================================================================== *)

Lemma py_strip_raises (v : json) (e : exn) :
  py_strip v = Raise e -> is_IndexError_or_KeyError e = false.
Proof. destruct v; cbn; intros H; try discriminate H; now injection H as <-. Qed.

Lemma py_get_raises (v default : json) (key : string) (e : exn) :
  py_get v key default = Raise e -> is_IndexError_or_KeyError e = false.
Proof. destruct v; cbn; intros H; try discriminate H; now injection H as <-. Qed.

(** On a dict, [get] with a default returns. *)
Lemma py_get_dict (d : list (string * json)) (key : string) (default : json) :
  exists v, py_get (JDict d) key default = Ok v.
Proof. cbn. eauto. Qed.

(** Indexing position 0 of a non-empty list returns its head. *)
Lemma py_index_head (context : list json) :
  nonempty context = true ->
  exists first, context = first :: tl context /\ py_index context 0 = Ok first.
Proof. destruct context as [|first rest]; [discriminate | eauto]. Qed.

Ltac raise_cases H :=
  repeat match type of H with
         | exc_bind ?x _ = Raise _ =>
             let E := fresh "E" in destruct x eqn:E; cbn [exc_bind] in H
         end.

(** Reading the first record of a non-empty list never raises an
    [IndexError] or a [KeyError]. *)
Lemma read_first_raises (context : list json) (e : exn) :
  nonempty context = true ->
  read_first context = Raise e ->
  is_IndexError_or_KeyError e = false.
Proof.
  intros Hne H. destruct (py_index_head context Hne) as (first & _ & Hfirst).
  unfold read_first in H. rewrite Hfirst in H. cbn [exc_bind] in H.
  raise_cases H; try discriminate H; injection H as <-;
    eauto using py_strip_raises, py_get_raises.
Qed.

Lemma malformed_events_flagged (statement : string) (e : exn) :
  Forall (fun ev => is_malformed_event ev = true) (malformed_events statement e).
Proof. repeat (constructor; [reflexivity |]). constructor. Qed.

(** The loop never runs the handler of its first [try]. *)
Lemma evaluate_loop_no_malformed (env : Env) (user_input : string)
    (items : list (string * list json)) :
  forall (acc : list string) (t : trace),
  exists added,
    snd (evaluate_loop env user_input items acc t) = t ++ added
    /\ Forall (fun ev => is_malformed_event ev = false) added.
Proof.
  induction items as [|[statement context] rest IH]; intros acc t.
  - exists []. cbn. now rewrite app_nil_r.
  - rewrite evaluate_loop_cons.
    destruct (nonempty context) eqn:Hne; cbn [negb].
    + destruct (read_first context) as [[[title content] url] | e] eqn:R.
      * cbv zeta.
        destruct (llm env _ _ _) as [response | e];
          [destruct (response_text response) as [text | e] |];
          match goal with
          | |- context [evaluate_loop _ _ _ ?a (t ++ ?ev)] =>
              destruct (IH a (t ++ ev)) as (added & -> & Hadded);
              exists (ev ++ added); rewrite app_assoc;
              split; [reflexivity |];
              apply Forall_app; split; [| exact Hadded]
          end;
          repeat (constructor; [reflexivity |]); constructor.
      * rewrite (read_first_raises context e Hne R).
        exists []. cbn. now rewrite app_nil_r.
    + destruct (IH acc (t ++ skipped_events statement)) as (added & -> & Hadded).
      exists (skipped_events statement ++ added). rewrite app_assoc.
      split; [reflexivity |].
      apply Forall_app; split; [| exact Hadded].
      repeat (constructor; [reflexivity |]); constructor.
Qed.

(** C10.  When every evidence record is a dict, the handler that catches
    [IndexError] and [KeyError] around the reading of title, content and url
    is never run: for every item that passes the emptiness check, indexing
    position 0 returns a dict, [get] with a default returns on it, and
    whatever the reading raises is neither an [IndexError] nor a
    [KeyError]; and no event of that handler is in the trace of
    [evaluate_assertions]. *)
Theorem malformed_evidence_handler_unreachable (env : Env)
    (user_input : string) (results_dict : PyDict.t (list json)) (t : trace) :
  Forall (fun item => Forall (fun record => is_dict record = true) (snd item))
         (PyDict.items results_dict) ->
  (forall statement context,
     In (statement, context) (PyDict.items results_dict) ->
     nonempty context = true ->
     (exists d,
        py_index context 0 = Ok (JDict d)
        /\ forall key default, exists v, py_get (JDict d) key default = Ok v)
     /\ forall e, read_first context = Raise e ->
                  is_IndexError_or_KeyError e = false)
  /\ exists added,
       snd (evaluate_assertions env user_input results_dict t) = t ++ added
       /\ Forall (fun ev => is_malformed_event ev = false) added.
Proof.
  intros Hdict. split.
  - intros statement context Hin Hne. split.
    + rewrite Forall_forall in Hdict. specialize (Hdict _ Hin). cbn [snd] in Hdict.
      destruct (py_index_head context Hne) as (first & E & Hfirst).
      rewrite E in Hdict. apply Forall_inv in Hdict.
      destruct first; try discriminate Hdict.
      eexists. split; [exact Hfirst |]. intros. apply py_get_dict.
    + intros e. now apply read_first_raises.
  - rewrite evaluate_assertions_run.
    destruct (evaluate_loop_no_malformed env user_input
                (PyDict.items results_dict) [] (t ++ [evaluator_started]))
      as (added & E & Hadded).
    destruct (evaluate_loop _ _ _ _ _) as [[l | e] t']; cbn [snd] in *; subst t'.
    + exists (evaluator_started :: added
              ++ [EvSt StSuccess "All key assumptions evaluated."]).
      split; [now rewrite <- !app_assoc |].
      constructor; [reflexivity |].
      apply Forall_app; split; [exact Hadded |].
      constructor; [reflexivity | constructor].
    + exists (evaluator_started :: added).
      split; [now rewrite <- !app_assoc |].
      constructor; [reflexivity | exact Hadded].
Qed.

Lemma malformed_evidence_handler_unreachable_witness :
  let results_dict :=
    [ (Samples.a_cheese, [Samples.rock_record]); (Samples.a_found, []) ] in
  (forall statement context,
     In (statement, context) (PyDict.items results_dict) ->
     nonempty context = true ->
     (exists d,
        py_index context 0 = Ok (JDict d)
        /\ forall key default, exists v, py_get (JDict d) key default = Ok v)
     /\ forall e, read_first context = Raise e ->
                  is_IndexError_or_KeyError e = false)
  /\ exists added,
       snd (evaluate_assertions Samples.env_moon "The moon is made of cheese."
              results_dict [])
         = [] ++ added
       /\ Forall (fun ev => is_malformed_event ev = false) added.
Proof.
  cbv zeta.
  apply (malformed_evidence_handler_unreachable Samples.env_moon
           "The moon is made of cheese."
           [ (Samples.a_cheese, [Samples.rock_record]); (Samples.a_found, []) ]
           []).
  repeat constructor.
Defined.

(* ================================================================== *)
(** ** The assumption list read from the reply *)
(* ================================================================== *)

(** Replacing "*" by the empty string deletes every star. *)
Lemma replace_star (s : string) :
  Str.replace "*" "" s = delete_char "*"%char s.
Proof.
  unfold Str.replace.
  induction s as [|c s IH]; [reflexivity |].
  cbn [Str.replace_from Str.startswith delete_char String.length Nat.sub].
  destruct (Ascii.eqb "*"%char c); cbn [andb]; [exact IH | now rewrite IH].
Qed.

Lemma delete_char_gone (c : ascii) (s : string) :
  contains_char c (delete_char c s) = false.
Proof.
  induction s as [|x s IH]; [reflexivity |].
  cbn [delete_char]. destruct (Ascii.eqb c x) eqn:E; [exact IH |].
  cbn [contains_char]. now rewrite E, IH.
Qed.

Lemma lstrip_all_space (s : string) :
  all_space s = true -> Str.lstrip s = ""%string.
Proof.
  induction s as [|c s IH]; [reflexivity |].
  cbn [all_space Str.lstrip]. intros H. apply andb_true_iff in H as [Hc Hs].
  rewrite Hc. now apply IH.
Qed.

Lemma lstrip_not_all_space (s : string) :
  all_space s = false ->
  exists c r, Str.lstrip s = String c r /\ Str.is_space c = false.
Proof.
  induction s as [|c s IH]; [discriminate |].
  cbn [all_space Str.lstrip]. destruct (Str.is_space c) eqn:Hc; cbn [andb].
  - exact IH.
  - intros _. now exists c, s.
Qed.

Lemma rstrip_keeps_head (c : ascii) (r : string) :
  Str.is_space c = false -> Str.truthy (Str.rstrip (String c r)) = true.
Proof.
  intros Hc. cbn [Str.rstrip]. rewrite Hc. now destruct (Str.rstrip r).
Qed.

(** A line is kept by the comprehension exactly when it is not blank. *)
Lemma truthy_strip (line : string) :
  Str.truthy (Str.strip line) = negb (all_space line).
Proof.
  unfold Str.strip. destruct (all_space line) eqn:E.
  - now rewrite lstrip_all_space.
  - destruct (lstrip_not_all_space line E) as (c & r & -> & Hc).
    now apply rstrip_keeps_head.
Qed.

Lemma Forall2_map_eq {A B} (f : A -> B) (l : list A) :
  Forall2 (fun b a => b = f a) (map f l) l.
Proof. induction l; constructor; [reflexivity | assumption]. Qed.

(** [assertions_of], line by line. *)
Lemma assertions_of_lines (assertions : string) :
  Forall2 (fun assumption line =>
             assumption = delete_char "*"%char (Str.strip line))
          (assertions_of assertions)
          (filter (fun line => negb (all_space line))
                  (Str.splitlines assertions)).
Proof.
  unfold assertions_of.
  rewrite (filter_ext _ (fun line => negb (all_space line)))
    by (intros line; apply truthy_strip).
  rewrite (map_ext _ (fun line => delete_char "*"%char (Str.strip line)))
    by (intros line; apply replace_star).
  apply Forall2_map_eq.
Qed.

Lemma assertions_of_no_star (assertions : string) :
  Forall (fun assumption => contains_char "*"%char assumption = false)
         (assertions_of assertions).
Proof.
  unfold assertions_of. apply Forall_map, Forall_forall. intros line _.
  rewrite replace_star. apply delete_char_gone.
Qed.

(** C8, as the code has it.  When the LLM call returns a reply with a text,
    [generate_assertions] returns the list obtained from the stripped text
    by splitting it on line boundaries, dropping the blank lines, and
    giving each remaining line, in order, stripped of surrounding
    whitespace and then with every star deleted (wherever it stands); no
    returned string contains a star. *)
Theorem generate_assertions_lines (env : Env) (user_input : string) (t : trace)
    (response : Response) (text : string) :
  llm env (List.length (generate_calls t)) model (create_template user_input)
    = Ok response ->
  response_text response = Ok text ->
  exists assertions_list,
    generate_assertions env user_input t
      = (Ok assertions_list, t ++ generator_events_ok user_input)
    /\ Forall2 (fun assumption line =>
                  assumption = delete_char "*"%char (Str.strip line))
               assertions_list
               (filter (fun line => negb (all_space line))
                       (Str.splitlines (Str.strip text)))
    /\ Forall (fun assumption => contains_char "*"%char assumption = false)
              assertions_list.
Proof.
  intros L T. exists (assertions_of (Str.strip text)).
  rewrite generate_assertions_run, L, T.
  split; [reflexivity |].
  split; [apply assertions_of_lines | apply assertions_of_no_star].
Qed.

Lemma generate_assertions_lines_witness :
  exists assertions_list,
    generate_assertions Samples.env_moon "The moon is made of cheese." []
      = (Ok assertions_list,
         [] ++ generator_events_ok "The moon is made of cheese.")
    /\ Forall2 (fun assumption line =>
                  assumption = delete_char "*"%char (Str.strip line))
               assertions_list
               (filter (fun line => negb (all_space line))
                       (Str.splitlines (Str.strip Samples.moon_bullets)))
    /\ Forall (fun assumption => contains_char "*"%char assumption = false)
              assertions_list.
Proof.
  apply (generate_assertions_lines Samples.env_moon
           "The moon is made of cheese." []
           (mk_response (Ok Samples.moon_bullets)) Samples.moon_bullets).
  - reflexivity.
  - reflexivity.
Defined.

(** C8, as it is worded, fails: for the reply
    "* Does elon musk own deepseek?" / "* Is **Deepseek** a company?"
    the returned strings begin with the space that followed the bullet,
    and the stars inside the second line are gone too, so the list is not
    the list of lines without leading bullets and surrounding
    whitespace. *)
Lemma generate_assertions_lines_counterexample :
  let r := fst (generate_assertions Samples.env_deepseek
                  "deepseek company is owned by elon musk" []) in
  r = Ok [ " Does elon musk own deepseek?"%string;
           " Is Deepseek a company?"%string ]
  /\ worded_assertions (Str.strip Samples.deepseek_bullets)
     = [ "Does elon musk own deepseek?"%string;
         "Is **Deepseek** a company?"%string ]
  /\ r <> Ok (worded_assertions (Str.strip Samples.deepseek_bullets))
  /\ Str.strip " Does elon musk own deepseek?"
     <> " Does elon musk own deepseek?"%string.
Proof.
  cbv zeta. split; [vm_compute; reflexivity |].
  split; [vm_compute; reflexivity |].
  split; [vm_compute; discriminate | vm_compute; discriminate].
Qed.

(* ================================================================== *)
(** ** The scenarios of the specification, run *)
(* ================================================================== *)

Example check_result_three_spellings :
  check_result "... Final Result: FAKE ..." = Some "FAKE"%string
  /\ check_result "... final result: fake ..." = Some "FAKE"%string
  /\ check_result "... FINAL RESULT: Fake ..." = Some "FAKE"%string
  /\ check_result "... Final Result: REAL ..." = Some "REAL"%string
  /\ check_result "The verdict is: fake" = None.
Proof. repeat split; reflexivity. Qed.

Example splitlines_boundaries :
  Str.splitlines
    ("a" ++ String (ascii_of_nat 13) Str.nl ++ Str.nl ++ "b" ++ Str.nl)%string
  = [ "a"; ""; "b" ]%string.
Proof. reflexivity. Qed.

Example replace_leftmost : Str.replace "aa" "b" "aaa" = "ba"%string.
Proof. reflexivity. Qed.

Example moon_run :
  let user_input := "The moon is made of cheese."%string in
  let final := "Final Result: FAKE. Overall Reasoning: rock, not cheese."%string in
  fst (process_user_input Samples.env_moon user_input [])
  = Ok (final,
        [ (Samples.a_cheese, [Samples.rock_record]); (Samples.a_found, []) ])
  /\ check_result final = Some "FAKE"%string
  /\ fst (evaluate_assertions Samples.env_moon user_input
            [ (Samples.a_cheese, [Samples.rock_record]); (Samples.a_found, []) ]
            (generator_events_ok user_input))
     = Ok [ "FALSE. The samples are rock."%string ].
Proof. cbv zeta. repeat split; vm_compute; reflexivity. Qed.

Example unreadable_reply_run :
  fst (process_user_input Samples.env_no_text "The moon is made of cheese." [])
  = Ok (NO_ASSERTIONS, PyDict.empty).
Proof. vm_compute. reflexivity. Qed.

Example moon_up_differs_in_one_search :
  same_searches_except 1 Samples.env_moon Samples.env_moon_up.
Proof.
  intros m query H. destruct m as [|[|m]]; [reflexivity | | reflexivity].
  now contradiction H.
Qed.

(** A record that is not a dict makes the reading raise an
    [AttributeError], which the handler does not catch: the loop raises. *)
Example non_dict_record_raises :
  fst (evaluate_assertions Samples.env_moon "The moon is made of cheese."
         [ (Samples.a_cheese, [JStr "not a record"]) ] [])
  = Raise (no_attribute (JStr "not a record") "get").
Proof. vm_compute. reflexivity. Qed.

(* ================================================================== *)
(** ** More on the fetcher *)
(* ================================================================== *)

Lemma search_calls_fetched_events (env : Env) (n : nat) (assertions : list string) :
  search_calls (fetched_events env n assertions) = map EvSearch assertions.
Proof.
  revert n; induction assertions as [|a rest IH]; intros n;
    cbn [fetched_events map]; [reflexivity |].
  now rewrite search_calls_app, search_calls_fetch_events, IH.
Qed.

Lemma generate_calls_fetched_events (env : Env) (n : nat) (assertions : list string) :
  generate_calls (fetched_events env n assertions) = [].
Proof.
  revert n; induction assertions as [|a rest IH]; intros n;
    cbn [fetched_events]; [reflexivity |].
  now rewrite generate_calls_app, generate_calls_fetch_events, IH.
Qed.

Lemma fetch_all_results_searches (env : Env)
    (assertions : list string) (t : trace) :
  exists results_dict added,
    fetch_all_results env assertions t = (Ok results_dict, t ++ added)
    /\ search_calls added = map EvSearch assertions
    /\ generate_calls added = [].
Proof.
  rewrite fetch_all_results_run. do 2 eexists. split; [reflexivity |].
  unfold fetcher_started.
  change (?x :: ?l ++ ?r) with ([x] ++ l ++ r).
  rewrite !search_calls_app, !generate_calls_app,
    search_calls_fetched_events, generate_calls_fetched_events.
  cbn. now rewrite app_nil_r.
Qed.

(** X1.  [fetch_all_results] returns a dict, whatever the searches do; it makes
    one search for each element of the list, in the order of the list,
    with the assertion as the query (an assertion listed twice is searched
    twice), and no LLM call. *)
Theorem fetch_all_results_one_search_each (env : Env)
    (assertions : list string) (t : trace) :
  exists results_dict added,
    fetch_all_results env assertions t = (Ok results_dict, t ++ added)
    /\ search_calls added = map EvSearch assertions
    /\ generate_calls added = [].
Proof. apply fetch_all_results_searches. Qed.

Lemma set_new_key {V} (k : string) (v : V) (d : PyDict.t V) :
  ~ In k (PyDict.keys d) -> PyDict.set k v d = d ++ [(k, v)].
Proof.
  induction d as [|[k' v'] d IH]; intros H; cbn [PyDict.set]; [reflexivity |].
  cbn [PyDict.keys map fst In] in H.
  destruct (String.eqb_spec k k') as [-> | _]; [tauto |].
  cbn [List.app]. f_equal. apply IH. unfold PyDict.keys. tauto.
Qed.

Lemma fold_put_distinct {V} (pairs : list (string * V)) (d : PyDict.t V) :
  NoDup (PyDict.keys d ++ map fst pairs) ->
  fold_left PyDict.put pairs d = d ++ pairs.
Proof.
  revert d; induction pairs as [|[k v] pairs IH]; intros d H; cbn [fold_left].
  - now rewrite app_nil_r.
  - cbn [map fst] in H. unfold PyDict.put at 2. cbn [fst snd].
    rewrite set_new_key.
    + rewrite IH.
      * now rewrite <- app_assoc.
      * unfold PyDict.keys in *. rewrite map_app. cbn [map fst].
        now rewrite <- app_assoc.
    + apply NoDup_remove_2 in H. rewrite in_app_iff in H. tauto.
Qed.

(** X2.  When no assertion is listed twice, the EvidenceSet has exactly the
    assertions as its keys, in their order, each with the evidence of its
    own search. *)
Theorem fetch_all_results_distinct (env : Env) (assertions : list string)
    (t : trace) :
  NoDup assertions ->
  exists results_dict t',
    fetch_all_results env assertions t = (Ok results_dict, t')
    /\ PyDict.keys results_dict = assertions
    /\ PyDict.items results_dict
       = fetched_pairs env (List.length (search_calls t)) assertions
    /\ forall i a,
         nth_error assertions i = Some a ->
         nth_error (PyDict.items results_dict) i
         = Some (a, fetch_outcome env (List.length (search_calls t) + i) a).
Proof.
  intros Hnd. rewrite fetch_all_results_run.
  set (n := List.length (search_calls t)).
  assert (E : PyDict.of_pairs (fetched_pairs env n assertions)
              = fetched_pairs env n assertions).
  { unfold PyDict.of_pairs. rewrite fold_put_distinct; [reflexivity |].
    cbn. now rewrite fetched_pairs_keys. }
  do 2 eexists. split; [reflexivity |]. rewrite E. unfold PyDict.items.
  split; [apply fetched_pairs_keys |]. split; [reflexivity |].
  clear E Hnd. generalize n. clear n.
  induction assertions as [|b rest IH]; intros n i a Hi.
  - destruct i; discriminate Hi.
  - destruct i as [|i]; cbn [nth_error fetched_pairs] in *.
    + injection Hi as ->. now rewrite Nat.add_0_r.
    + rewrite (IH (S n) i a Hi). do 3 f_equal. lia.
Qed.

Lemma fetch_all_results_distinct_witness :
  exists results_dict t',
    fetch_all_results Samples.env_moon [Samples.a_cheese; Samples.a_found] []
      = (Ok results_dict, t')
    /\ PyDict.keys results_dict = [Samples.a_cheese; Samples.a_found]
    /\ PyDict.items results_dict
       = fetched_pairs Samples.env_moon (List.length (search_calls []))
           [Samples.a_cheese; Samples.a_found]
    /\ forall i a,
         nth_error [Samples.a_cheese; Samples.a_found] i = Some a ->
         nth_error (PyDict.items results_dict) i
         = Some (a, fetch_outcome Samples.env_moon
                      (List.length (search_calls []) + i) a).
Proof.
  apply (fetch_all_results_distinct Samples.env_moon
           [Samples.a_cheese; Samples.a_found] []).
  constructor; [cbn [In]; intros [H | []]; discriminate H |].
  constructor; [intros [] | constructor].
Defined.

(** X3.  When the search returns, [fetch_result] returns the list under the
    "results" key of the reply, or the empty list when the reply has no
    such key; nothing is logged. *)
Theorem fetch_result_reply (env : Env) (assertion : string) (t : trace)
    (result : SearchReply) :
  tavily env (List.length (search_calls t)) assertion = Ok result ->
  fetch_result env assertion t
  = (Ok (assertion,
         match reply_results result with Some records => records | None => [] end),
     t ++ [EvSearch assertion]).
Proof.
  intros H. rewrite fetch_result_run. unfold fetch_outcome, fetch_events.
  now rewrite H.
Qed.

Lemma fetch_result_reply_witness :
  fetch_result Samples.env_no_hits Samples.a_cheese []
  = (Ok (Samples.a_cheese,
         match reply_results (mk_reply None) with
         | Some records => records
         | None => []
         end),
     [] ++ [EvSearch Samples.a_cheese]).
Proof.
  apply (fetch_result_reply Samples.env_no_hits Samples.a_cheese []
           (mk_reply None)).
  reflexivity.
Defined.

(* ================================================================== *)
(** ** More on the evaluator *)
(* ================================================================== *)

Lemma rstrip_idempotent (s : string) : Str.rstrip (Str.rstrip s) = Str.rstrip s.
Proof.
  induction s as [|c s IH]; [reflexivity |].
  cbn [Str.rstrip]. destruct (Str.rstrip s) as [|c' r] eqn:E.
  - destruct (Str.is_space c) eqn:Hc; [reflexivity |].
    cbn [Str.rstrip]. now rewrite Hc.
  - cbn [Str.rstrip]. cbn [Str.rstrip] in IH.
    destruct (Str.rstrip r) as [|c'' r'] eqn:E'.
    + destruct (Str.is_space c') eqn:Hc'; [discriminate IH |].
      now rewrite IH.
    + now rewrite IH.
Qed.

(** [lstrip] leaves the empty string or a string that starts with a
    character that is not whitespace. *)
Lemma lstrip_head (s : string) :
  Str.lstrip s = ""%string
  \/ exists c r, Str.lstrip s = String c r /\ Str.is_space c = false.
Proof.
  destruct (all_space s) eqn:E.
  - left. now apply lstrip_all_space.
  - right. now apply lstrip_not_all_space.
Qed.

Lemma lstrip_rstrip_head (c : ascii) (r : string) :
  Str.is_space c = false ->
  Str.lstrip (Str.rstrip (String c r)) = Str.rstrip (String c r).
Proof.
  intros Hc. cbn [Str.rstrip]. rewrite Hc.
  destruct (Str.rstrip r); cbn [Str.lstrip]; now rewrite Hc.
Qed.

(** Stripping twice is stripping once. *)
Lemma strip_idempotent (s : string) : Str.strip (Str.strip s) = Str.strip s.
Proof.
  unfold Str.strip.
  destruct (lstrip_head s) as [-> | (c & r & -> & Hc)]; [reflexivity |].
  rewrite lstrip_rstrip_head by exact Hc. apply rstrip_idempotent.
Qed.

Lemma read_first_firstn (context : list json) :
  read_first (firstn 1 context) = read_first context.
Proof. destruct context; reflexivity. Qed.

Lemma nonempty_firstn (context : list json) :
  nonempty (firstn 1 context) = nonempty context.
Proof. destruct context; reflexivity. Qed.

Lemma evaluate_loop_first_record (env : Env) (user_input : string)
    (items : list (string * list json)) :
  forall (acc : list string) (t : trace),
  evaluate_loop env user_input (first_record_only items) acc t
  = evaluate_loop env user_input items acc t.
Proof.
  induction items as [|[statement context] rest IH]; intros acc t;
    [reflexivity |].
  cbn [first_record_only map fst snd].
  change (map _ rest) with (first_record_only rest).
  rewrite !evaluate_loop_cons, read_first_firstn, nonempty_firstn.
  destruct (nonempty context); cbn [negb]; [| apply IH].
  destruct (read_first context) as [[[title content] url] | e].
  - cbv zeta.
    destruct (llm env _ _ _) as [response | e];
      [destruct (response_text response) as [text | e] |]; apply IH.
  - destruct (is_IndexError_or_KeyError e); [apply IH | reflexivity].
Qed.

(** X4.  Only the first record of each evidence list is used: the run of
    [evaluate_assertions] (result and trace) is the same when every other
    record is taken away. *)
Theorem evaluate_assertions_first_record_only (env : Env)
    (user_input : string) (results_dict : PyDict.t (list json)) (t : trace) :
  evaluate_assertions env user_input (first_record_only results_dict) t
  = evaluate_assertions env user_input results_dict t.
Proof.
  rewrite !evaluate_assertions_run. unfold PyDict.items.
  now rewrite evaluate_loop_first_record.
Qed.

(** X5.  The loop of [evaluate_assertions] sees a statement only through its
    stripped form: the run (result and trace) is the same on the items
    with their statements stripped.  So the whitespace that
    [generate_assertions] leaves around an assumption does not reach the
    evaluation prompt or the messages. *)
Theorem evaluate_loop_strips_statements (env : Env) (user_input : string)
    (items : list (string * list json)) :
  forall (acc : list string) (t : trace),
  evaluate_loop env user_input (strip_statements items) acc t
  = evaluate_loop env user_input items acc t.
Proof.
  induction items as [|[statement context] rest IH]; intros acc t;
    [reflexivity |].
  cbn [strip_statements map fst snd].
  change (map _ rest) with (strip_statements rest).
  rewrite !evaluate_loop_cons.
  unfold skipped_events, malformed_events, call_failed_events,
    text_failed_events, evaluated_events, evaluation_failed,
    evaluation_prompt.
  rewrite !strip_idempotent.
  destruct (nonempty context); cbn [negb]; [| apply IH].
  destruct (read_first context) as [[[title content] url] | e].
  - cbv zeta.
    destruct (llm env _ _ _) as [response | e];
      [destruct (response_text response) as [text | e] |]; apply IH.
  - destruct (is_IndexError_or_KeyError e); [apply IH | reflexivity].
Qed.

Ltac loop_branch IH :=
  match goal with
  | |- context [evaluate_loop _ _ _ ?a (?t ++ ?ev)] =>
      let added := fresh "added" in
      let r := fresh "r" in
      let Hrun := fresh "Hrun" in
      let Hrest := fresh "Hrest" in
      destruct (IH a (t ++ ev)) as (added & r & Hrun & Hrest);
      exists (ev ++ added), r; rewrite app_assoc;
      split; [exact Hrun |]
  end.

Lemma evaluate_loop_sleeps (env : Env) (user_input : string)
    (items : list (string * list json)) :
  forall (acc : list string) (t : trace),
  exists added r,
    evaluate_loop env user_input items acc t = (r, t ++ added)
    /\ exists k,
         filter is_sleep added = repeat (EvSleep 1) k
         /\ forall l, r = Ok l -> List.length l = List.length acc + k.
Proof.
  induction items as [|[statement context] rest IH]; intros acc t.
  - exists [], (Ok acc). cbn. rewrite app_nil_r. split; [reflexivity |].
    exists 0. split; [reflexivity |]. intros l E. injection E as <-. lia.
  - rewrite evaluate_loop_cons.
    destruct (nonempty context); cbn [negb].
    + destruct (read_first context) as [[[title content] url] | e].
      * cbv zeta.
        destruct (llm env _ _ _) as [response | e];
          [destruct (response_text response) as [text | e] |];
          loop_branch IH; destruct Hrest as (k & Hk & Hl);
          rewrite filter_app, Hk.
        -- exists (S k). split; [reflexivity |].
           intros l E. rewrite (Hl l E), length_app. cbn. lia.
        -- exists k. split; [reflexivity | exact Hl].
        -- exists k. split; [reflexivity | exact Hl].
      * destruct (is_IndexError_or_KeyError e).
        -- loop_branch IH. destruct Hrest as (k & Hk & Hl).
           rewrite filter_app, Hk. exists k. split; [reflexivity | exact Hl].
        -- exists [], (Raise e). rewrite app_nil_r. split; [reflexivity |].
           exists 0. split; [reflexivity |]. intros l E. discriminate E.
    + loop_branch IH. destruct Hrest as (k & Hk & Hl).
      rewrite filter_app, Hk. exists k. split; [reflexivity | exact Hl].
Qed.

(** X6.  The pacing of the evaluator: every sleep lasts one second, and when
    [evaluate_assertions] returns, it has slept once for each judgment it
    returns (a skipped or failed evaluation costs no sleep). *)
Theorem evaluate_assertions_sleeps_once_per_judgment (env : Env)
    (user_input : string) (results_dict : PyDict.t (list json)) (t : trace) :
  exists added r k,
    evaluate_assertions env user_input results_dict t = (r, t ++ added)
    /\ filter is_sleep added = repeat (EvSleep 1) k
    /\ forall judgments, r = Ok judgments -> List.length judgments = k.
Proof.
  rewrite evaluate_assertions_run.
  destruct (evaluate_loop_sleeps env user_input (PyDict.items results_dict) []
              (t ++ [evaluator_started]))
    as (added & r & -> & k & Hk & Hl).
  destruct r as [l | e].
  - exists (evaluator_started :: added
            ++ [EvSt StSuccess "All key assumptions evaluated."]), (Ok l), k.
    split; [now rewrite <- !app_assoc |].
    split.
    + unfold evaluator_started. cbn [filter is_sleep].
      rewrite filter_app, Hk. cbn. now rewrite app_nil_r.
    + intros judgments E. injection E as <-. now rewrite (Hl l eq_refl).
  - exists (evaluator_started :: added), (Raise e), k.
    split; [now rewrite <- !app_assoc |].
    split; [exact Hk |]. intros judgments E. discriminate E.
Qed.

Lemma py_strip_raises_kind (v : json) (e : exn) :
  py_strip v = Raise e -> exn_kind e = AttributeError.
Proof. destruct v; cbn; intros H; try discriminate H; now injection H as <-. Qed.

Lemma py_get_raises_kind (v default : json) (key : string) (e : exn) :
  py_get v key default = Raise e -> exn_kind e = AttributeError.
Proof. destruct v; cbn; intros H; try discriminate H; now injection H as <-. Qed.

Lemma read_first_raises_kind (context : list json) (e : exn) :
  nonempty context = true ->
  read_first context = Raise e ->
  exn_kind e = AttributeError.
Proof.
  intros Hne H. destruct (py_index_head context Hne) as (first & _ & Hfirst).
  unfold read_first in H. rewrite Hfirst in H. cbn [exc_bind] in H.
  raise_cases H; try discriminate H; injection H as <-;
    eauto using py_strip_raises_kind, py_get_raises_kind.
Qed.

Lemma evaluate_loop_raises (env : Env) (user_input : string)
    (items : list (string * list json)) :
  forall (acc : list string) (t : trace) (e : exn),
  fst (evaluate_loop env user_input items acc t) = Raise e ->
  exists statement context,
    In (statement, context) items
    /\ nonempty context = true
    /\ read_first context = Raise e.
Proof.
  induction items as [|[statement context] rest IH]; intros acc t e.
  - cbn. discriminate.
  - rewrite evaluate_loop_cons.
    assert (Hrest : forall acc' t',
              fst (evaluate_loop env user_input rest acc' t') = Raise e ->
              exists s c, In (s, c) ((statement, context) :: rest)
                          /\ nonempty c = true /\ read_first c = Raise e).
    { intros acc' t' H. destruct (IH acc' t' e H) as (s & c & Hin & Hc).
      exists s, c. split; [now right | exact Hc]. }
    destruct (nonempty context) eqn:Hne; cbn [negb]; [| apply Hrest].
    destruct (read_first context) as [[[title content] url] | e'] eqn:R.
    + cbv zeta.
      destruct (llm env _ _ _) as [response | e''];
        [destruct (response_text response) as [text | e''] |]; apply Hrest.
    + destruct (is_IndexError_or_KeyError e') eqn:K.
      * now rewrite (read_first_raises context e' Hne R) in K.
      * cbn [fst]. intros E. injection E as <-.
        exists statement, context. split; [now left | now split].
Qed.

(** X7.  [evaluate_assertions] raises only when reading title, content or url
    of the first record of some item raises, and what it raises then is
    that [AttributeError] (a record that is not a dict, or a field that is
    not a str).  A failure of an LLM call never makes it raise. *)
Theorem evaluate_assertions_raises_only_attribute_error (env : Env)
    (user_input : string) (results_dict : PyDict.t (list json)) (t : trace)
    (e : exn) :
  fst (evaluate_assertions env user_input results_dict t) = Raise e ->
  exn_kind e = AttributeError
  /\ exists statement context,
       In (statement, context) (PyDict.items results_dict)
       /\ nonempty context = true
       /\ read_first context = Raise e.
Proof.
  rewrite evaluate_assertions_run. intros H.
  assert (L : fst (evaluate_loop env user_input (PyDict.items results_dict) []
                     (t ++ [evaluator_started])) = Raise e).
  { destruct (evaluate_loop _ _ _ _ _) as [[l | e'] t']; cbn [fst] in *;
      [discriminate H | exact H]. }
  destruct (evaluate_loop_raises _ _ _ _ _ _ L) as (s & c & Hin & Hne & R).
  split; [now apply (read_first_raises_kind c) |].
  now exists s, c.
Qed.

Lemma evaluate_assertions_raises_only_attribute_error_witness :
  let results_dict := [ (Samples.a_cheese, [JStr "not a record"]) ] in
  let e := no_attribute (JStr "not a record") "get" in
  exn_kind e = AttributeError
  /\ exists statement context,
       In (statement, context) (PyDict.items results_dict)
       /\ nonempty context = true
       /\ read_first context = Raise e.
Proof.
  cbv zeta.
  apply (evaluate_assertions_raises_only_attribute_error Samples.env_moon
           "The moon is made of cheese."
           [ (Samples.a_cheese, [JStr "not a record"]) ] []).
  vm_compute. reflexivity.
Defined.

Lemma evaluate_loop_readable (env : Env) (user_input : string)
    (items : list (string * list json)) :
  (forall item, In item items -> has_evidence item = true ->
                readable item = true) ->
  forall (acc : list string) (t : trace),
  exists added l,
    evaluate_loop env user_input items acc t = (Ok l, t ++ added)
    /\ generate_calls added = evaluation_calls user_input items
    /\ List.length (evaluation_calls user_input items)
       = List.length (filter has_evidence items).
Proof.
  induction items as [|[statement context] rest IH]; intros Hread acc t.
  - exists [], acc. cbn. now rewrite app_nil_r.
  - assert (Hrest : forall item, In item rest -> has_evidence item = true ->
                                 readable item = true).
    { intros item Hin. apply Hread. now right. }
    specialize (IH Hrest).
    pose proof (Hread (statement, context) (or_introl eq_refl)) as Hhead.
    unfold has_evidence, readable in Hhead. cbn [snd] in Hhead.
    rewrite evaluate_loop_cons.
    cbn [evaluation_calls flat_map filter fst snd].
    change (flat_map _ rest) with (evaluation_calls user_input rest).
    change (has_evidence (statement, context)) with (nonempty context).
    destruct (nonempty context) eqn:Hne; cbn [negb].
    + specialize (Hhead eq_refl).
      destruct (read_first context) as [[[title content] url] | e];
        [| discriminate Hhead].
      cbv zeta.
      destruct (llm env _ _ _) as [response | e];
        [destruct (response_text response) as [text | e] |];
        match goal with
        | |- context [evaluate_loop _ _ _ ?a (t ++ ?ev)] =>
            destruct (IH a (t ++ ev)) as (added & l & Hrun & Hc & Hn);
            exists (ev ++ added), l; rewrite app_assoc;
            split; [exact Hrun |]
        end;
        rewrite generate_calls_app, Hc; cbn [List.app List.length];
        (split; [reflexivity | now rewrite Hn]).
    + destruct (IH acc (t ++ skipped_events statement))
        as (added & l & Hrun & Hc & Hn).
      exists (skipped_events statement ++ added), l. rewrite app_assoc.
      split; [exact Hrun |].
      rewrite generate_calls_app, Hc. cbn [List.app].
      split; [reflexivity | exact Hn].
Qed.

(** X8.  When the first record of every item that has evidence can be read,
    [evaluate_assertions] returns (it does not raise), and its LLM calls
    are exactly one call for each item that has evidence, in the order of
    the dict, with the prompt built from the stripped statement and the
    content of the first record; so it returns at most that many
    judgments. *)
Theorem evaluate_assertions_one_call_per_evidence (env : Env)
    (user_input : string) (results_dict : PyDict.t (list json)) (t : trace) :
  (forall item, In item (PyDict.items results_dict) ->
                has_evidence item = true -> readable item = true) ->
  exists judgments added,
    evaluate_assertions env user_input results_dict t
      = (Ok judgments, t ++ added)
    /\ generate_calls added
       = evaluation_calls user_input (PyDict.items results_dict)
    /\ List.length (generate_calls added)
       = List.length (filter has_evidence (PyDict.items results_dict))
    /\ List.length judgments
       <= List.length (filter has_evidence (PyDict.items results_dict)).
Proof.
  intros Hread. rewrite evaluate_assertions_run.
  destruct (evaluate_loop_readable env user_input _ Hread []
              (t ++ [evaluator_started])) as (added & l & Hrun & Hc & Hn).
  destruct (evaluate_loop_sound env user_input (PyDict.items results_dict) []
              (t ++ [evaluator_started]))
    as (added' & r & Hrun' & _ & _ & Hn' & Hj).
  rewrite Hrun in Hrun'. injection Hrun' as <- Eadded.
  apply app_inv_head in Eadded. subst added'.
  rewrite Hrun.
  exists l, (evaluator_started :: added
             ++ [EvSt StSuccess "All key assumptions evaluated."]).
  split; [now rewrite <- !app_assoc |].
  assert (G : generate_calls
                (evaluator_started :: added
                 ++ [EvSt StSuccess "All key assumptions evaluated."])
              = generate_calls added).
  { unfold generate_calls, evaluator_started. cbn [filter is_generate].
    rewrite filter_app. cbn. now rewrite app_nil_r. }
  rewrite G, Hc. split; [reflexivity |]. split; [exact Hn |].
  destruct (Hj l eq_refl) as (new & -> & _ & Hlen).
  cbn [List.app]. rewrite Hc, Hn in Hlen. exact Hlen.
Qed.

Lemma evaluate_assertions_one_call_per_evidence_witness :
  let results_dict :=
    [ (Samples.a_cheese, [Samples.rock_record]); (Samples.a_found, []) ] in
  let user_input := "The moon is made of cheese."%string in
  let t := generator_events_ok user_input in
  exists judgments added,
    evaluate_assertions Samples.env_moon user_input results_dict t
      = (Ok judgments, t ++ added)
    /\ generate_calls added
       = evaluation_calls user_input (PyDict.items results_dict)
    /\ List.length (generate_calls added)
       = List.length (filter has_evidence (PyDict.items results_dict))
    /\ List.length judgments
       <= List.length (filter has_evidence (PyDict.items results_dict)).
Proof.
  cbv zeta.
  apply (evaluate_assertions_one_call_per_evidence Samples.env_moon
           "The moon is made of cheese."
           [ (Samples.a_cheese, [Samples.rock_record]); (Samples.a_found, []) ]
           (generator_events_ok "The moon is made of cheese.")).
  intros item [<- | [<- | []]] H; [reflexivity | discriminate H].
Defined.

(* ================================================================== *)
(** ** The synthesizer and the whole run *)
(* ================================================================== *)

(** What a run of [asyncprocess_and_evaluate] does, by the outcome of its
    LLM call. *)
Lemma asyncprocess_and_evaluate_run (env : Env) (reasoning_list : list string)
    (t : trace) :
  let prompt := synthesis_prompt (Str.join (Str.nl ++ Str.nl) reasoning_list) in
  let t' := t ++ [synthesizer_started; EvGenerate model_eval prompt] in
  asyncprocess_and_evaluate env reasoning_list t =
  match llm env (List.length (generate_calls t)) model_eval prompt with
  | Ok response =>
      match response_text response with
      | Ok text => (Ok (Str.strip text), t')
      | Raise e => (Raise e, t')
      end
  | Raise e => (Raise e, t')
  end.
Proof.
  cbv zeta. unfold asyncprocess_and_evaluate, synthesizer_started. run. calls.
  destruct (llm env _ _ _) as [response | e]; cbn.
  - destruct (response_text response); cbn; now rewrite <- !app_assoc.
  - now rewrite <- !app_assoc.
Qed.

(** [process_user_input] in terms of its four stages. *)
Lemma process_user_input_run (env : Env) (user_input : string) (t : trace) :
  process_user_input env user_input t =
  match generate_assertions env user_input t with
  | (Ok [], t1) => (Ok (NO_ASSERTIONS, PyDict.empty), t1)
  | (Ok assertions_list, t1) =>
      match fetch_all_results env assertions_list t1 with
      | (Ok results_dict, t2) =>
          match evaluate_assertions env user_input results_dict t2 with
          | (Ok eval_results, t3) =>
              match asyncprocess_and_evaluate env eval_results t3 with
              | (Ok final_evaluation, t4) =>
                  (Ok (final_evaluation, results_dict), t4)
              | (Raise e, t4) => (Raise e, t4)
              end
          | (Raise e, t3) => (Raise e, t3)
          end
      | (Raise e, t2) => (Raise e, t2)
      end
  | (Raise e, t1) => (Raise e, t1)
  end.
Proof.
  unfold process_user_input. unfold bind at 1.
  destruct (generate_assertions env user_input t) as [[[|a l] | e] t1];
    reflexivity.
Qed.

(** X9.  A failure of the synthesis call is not caught anywhere: when the call
    raises, or the text of its reply cannot be read,
    [asyncprocess_and_evaluate] raises that exception after one call, and
    so does [process_user_input], although generation, fetching and
    evaluation went through. *)
Theorem synthesis_failure_aborts_run (env : Env) (user_input : string)
    (t t1 t2 t3 : trace) (assertions : list string)
    (results_dict : PyDict.t (list json)) (judgments : list string) (e : exn) :
  let prompt := synthesis_prompt (Str.join (Str.nl ++ Str.nl) judgments) in
  generate_assertions env user_input t = (Ok assertions, t1) ->
  assertions <> [] ->
  fetch_all_results env assertions t1 = (Ok results_dict, t2) ->
  evaluate_assertions env user_input results_dict t2 = (Ok judgments, t3) ->
  (llm env (List.length (generate_calls t3)) model_eval prompt = Raise e
   \/ exists response,
        llm env (List.length (generate_calls t3)) model_eval prompt = Ok response
        /\ response_text response = Raise e) ->
  let t4 := t3 ++ [synthesizer_started; EvGenerate model_eval prompt] in
  asyncprocess_and_evaluate env judgments t3 = (Raise e, t4)
  /\ process_user_input env user_input t = (Raise e, t4).
Proof.
  intros prompt G Hne F E L t4.
  assert (S : asyncprocess_and_evaluate env judgments t3 = (Raise e, t4)).
  { rewrite asyncprocess_and_evaluate_run. fold prompt.
    destruct L as [-> | (response & -> & ->)]; reflexivity. }
  split; [exact S |].
  rewrite process_user_input_run, G.
  destruct assertions as [|a l]; [now contradiction Hne |].
  now rewrite F, E, S.
Qed.

Lemma synthesis_failure_aborts_run_witness :
  let env := Samples.env_synth_down in
  let user_input := "The moon is made of cheese."%string in
  let results_dict :=
    [ (Samples.a_cheese, [Samples.rock_record]); (Samples.a_found, []) ] in
  let judgments := [ "FALSE. The samples are rock."%string ] in
  let t3 := snd (evaluate_assertions env user_input results_dict
                   (snd (fetch_all_results env
                           (assertions_of Samples.moon_bullets)
                           (generator_events_ok user_input)))) in
  let prompt := synthesis_prompt (Str.join (Str.nl ++ Str.nl) judgments) in
  let t4 := t3 ++ [synthesizer_started; EvGenerate model_eval prompt] in
  asyncprocess_and_evaluate env judgments t3 = (Raise Samples.timeout, t4)
  /\ process_user_input env user_input [] = (Raise Samples.timeout, t4).
Proof.
  cbv zeta.
  apply (synthesis_failure_aborts_run Samples.env_synth_down
           "The moon is made of cheese." []
           (generator_events_ok "The moon is made of cheese.")
           (snd (fetch_all_results Samples.env_synth_down
                   (assertions_of Samples.moon_bullets)
                   (generator_events_ok "The moon is made of cheese.")))
           (snd (evaluate_assertions Samples.env_synth_down
                   "The moon is made of cheese."
                   [ (Samples.a_cheese, [Samples.rock_record]);
                     (Samples.a_found, []) ]
                   (snd (fetch_all_results Samples.env_synth_down
                           (assertions_of Samples.moon_bullets)
                           (generator_events_ok "The moon is made of cheese.")))))
           (assertions_of Samples.moon_bullets)
           [ (Samples.a_cheese, [Samples.rock_record]); (Samples.a_found, []) ]
           [ "FALSE. The samples are rock."%string ]
           Samples.timeout).
  - vm_compute. reflexivity.
  - vm_compute. discriminate.
  - vm_compute. reflexivity.
  - vm_compute. reflexivity.
  - left. vm_compute. reflexivity.
Defined.

Lemma evaluate_assertions_calls (env : Env) (user_input : string)
    (results_dict : PyDict.t (list json)) (t : trace) :
  exists added r,
    evaluate_assertions env user_input results_dict t = (r, t ++ added)
    /\ search_calls added = []
    /\ List.length (generate_calls added)
       <= List.length (filter has_evidence results_dict).
Proof.
  rewrite evaluate_assertions_run.
  destruct (evaluate_loop_sound env user_input (PyDict.items results_dict) []
              (t ++ [evaluator_started]))
    as (added & r & -> & Hs & _ & Hn & _).
  unfold PyDict.items in Hn.
  destruct r as [l | e].
  - exists (evaluator_started :: added
            ++ [EvSt StSuccess "All key assumptions evaluated."]), (Ok l).
    split; [now rewrite <- !app_assoc |].
    unfold evaluator_started, search_calls, generate_calls in *.
    cbn [filter is_search is_generate]. rewrite !filter_app, Hs. cbn.
    rewrite app_nil_r. split; [reflexivity | exact Hn].
  - exists (evaluator_started :: added), (Raise e).
    split; [now rewrite <- !app_assoc |].
    split; [exact Hs | exact Hn].
Qed.

Lemma length_filter_le {A} (f : A -> bool) (l : list A) :
  List.length (filter f l) <= List.length l.
Proof. induction l as [|a l IH]; cbn; [lia |]. destruct (f a); cbn; lia. Qed.

(** X10.  The cost of a run: [process_user_input] makes one search for each
    generated assumption and no other, at least one LLM call, and at most
    two more LLM calls than there are assumptions (one to generate, at
    most one for each assumption, one to synthesize). *)
Theorem process_user_input_call_bounds (env : Env) (user_input : string)
    (t : trace) :
  exists assertions t1 r added,
    generate_assertions env user_input t = (Ok assertions, t1)
    /\ process_user_input env user_input t = (r, t ++ added)
    /\ search_calls added = map EvSearch assertions
    /\ 1 <= List.length (generate_calls added)
    /\ List.length (generate_calls added) <= 2 + List.length assertions.
Proof.
  destruct (generate_assertions_total env user_input t)
    as (assertions & gadded & G & Hg).
  assert (Gc : generate_calls gadded
               = [EvGenerate model (create_template user_input)]
               /\ search_calls gadded = []).
  { destruct Hg as [-> | [e ->]]; split; reflexivity. }
  destruct Gc as [Gg Gs].
  exists assertions, (t ++ gadded).
  rewrite process_user_input_run, G.
  destruct assertions as [|a l].
  { exists (Ok (NO_ASSERTIONS, PyDict.empty)), gadded.
    rewrite Gg, Gs. cbn. repeat split; lia. }
  destruct (fetch_all_results_keys env (a :: l) (t ++ gadded))
    as (d & t2 & F & _ & K).
  destruct (fetch_all_results_searches env (a :: l) (t ++ gadded))
    as (d' & fadded & F' & Fs & Fg).
  rewrite F in F'. injection F' as <- ->. rewrite F.
  assert (Hd : List.length (filter has_evidence d) <= List.length (a :: l)).
  { etransitivity; [apply length_filter_le |].
    replace (List.length d) with (List.length (PyDict.keys d))
      by apply length_map.
    rewrite K. apply PyDictFacts.subseq_length, PyDictFacts.new_keys_subseq. }
  destruct (evaluate_assertions_calls env user_input d
              ((t ++ gadded) ++ fadded)) as (eadded & r & -> & Es & Eg).
  destruct r as [js | e].
  - rewrite asyncprocess_and_evaluate_run. cbv zeta.
    match goal with
    | |- context [?u ++ [synthesizer_started; ?c]] =>
        set (sadded := [synthesizer_started; c])
    end.
    assert (Sg : List.length (generate_calls sadded) = 1
                 /\ search_calls sadded = []) by (split; reflexivity).
    destruct Sg as [Sg Ss].
    assert (Hcalls :
      search_calls (gadded ++ fadded ++ eadded ++ sadded)
        = map EvSearch (a :: l)
      /\ 1 <= List.length (generate_calls (gadded ++ fadded ++ eadded ++ sadded))
      /\ List.length (generate_calls (gadded ++ fadded ++ eadded ++ sadded))
         <= 2 + List.length (a :: l)).
    { rewrite !search_calls_app, !generate_calls_app, !length_app,
        Gs, Fs, Es, Ss, Gg, Fg, Sg.
      cbn [List.app List.length] in *. rewrite ?app_nil_r.
      split; [reflexivity |]. split; lia. }
    destruct (llm env _ _ _) as [response | e];
      [destruct (response_text response) as [text | e] |];
      eexists _, (gadded ++ fadded ++ eadded ++ sadded);
      (split; [reflexivity |]);
      (split; [now rewrite !app_assoc | exact Hcalls]).
  - exists (Raise e), (gadded ++ fadded ++ eadded).
    split; [reflexivity |]. split; [now rewrite !app_assoc |].
    rewrite !search_calls_app, !generate_calls_app, !length_app,
      Gs, Fs, Es, Gg, Fg.
    cbn [List.app List.length] in *. rewrite ?app_nil_r.
    split; [reflexivity |]. split; lia.
Qed.

(* ================================================================== *)
(** ** A run in which no search finds anything *)
(* ================================================================== *)

Lemma set_keeps_Forall {V} (P : string * V -> Prop) (k : string) (v : V)
    (d : PyDict.t V) :
  P (k, v) -> Forall P d -> Forall P (PyDict.set k v d).
Proof.
  intros Hkv. induction d as [|[k' v'] d IH]; intros H; cbn [PyDict.set].
  - now constructor.
  - apply Forall_cons_iff in H as [Hhead Htail].
    destruct (String.eqb_spec k k') as [<- | _]; constructor; auto.
Qed.

Lemma fold_put_keeps_Forall {V} (P : string * V -> Prop)
    (pairs : list (string * V)) :
  forall d : PyDict.t V,
  Forall P d -> Forall P pairs -> Forall P (fold_left PyDict.put pairs d).
Proof.
  induction pairs as [|[k v] pairs IH]; intros d Hd H; cbn [fold_left];
    [exact Hd |].
  apply Forall_cons_iff in H as [Hhead Htail].
  apply IH; [| exact Htail]. unfold PyDict.put. cbn [fst snd].
  now apply set_keeps_Forall.
Qed.

Lemma of_pairs_keeps_Forall {V} (P : string * V -> Prop)
    (pairs : list (string * V)) :
  Forall P pairs -> Forall P (PyDict.of_pairs pairs).
Proof. apply fold_put_keeps_Forall. constructor. Qed.

Lemma fetched_pairs_no_hits (env : Env) (n : nat) (assertions : list string) :
  (forall m query, fetch_outcome env m query = []) ->
  Forall (fun item => snd item = []) (fetched_pairs env n assertions).
Proof.
  intros H. revert n.
  induction assertions as [|a rest IH]; intros n; cbn [fetched_pairs];
    constructor; [apply H | apply IH].
Qed.

(** On items without evidence the loop only warns, twice for each item. *)
Lemma evaluate_loop_no_evidence (env : Env) (user_input : string)
    (items : list (string * list json)) :
  Forall (fun item => snd item = []) items ->
  forall (acc : list string) (t : trace),
  evaluate_loop env user_input items acc t
  = (Ok acc, t ++ flat_map (fun item => skipped_events (fst item)) items).
Proof.
  induction 1 as [|[statement context] rest Hhead _ IH]; intros acc t.
  - cbn. now rewrite app_nil_r.
  - cbn [snd] in Hhead. subst context.
    rewrite evaluate_loop_cons. cbn [nonempty negb flat_map fst].
    now rewrite IH, <- app_assoc.
Qed.

Lemma generate_calls_skipped (items : list (string * list json)) :
  generate_calls (flat_map (fun item => skipped_events (fst item)) items) = [].
Proof.
  induction items as [|item rest IH]; [reflexivity |].
  cbn [flat_map]. now rewrite generate_calls_app, IH.
Qed.

(** X11.  When every search of the run raises or finds nothing, every assumption
    maps to the empty list, the evaluator returns no judgment without
    calling the LLM, and the synthesizer is still called, on the prompt
    for the empty text: the whole run makes two LLM calls. *)
Theorem no_evidence_run (env : Env) (user_input : string) (t t1 : trace)
    (assertions : list string) :
  generate_assertions env user_input t = (Ok assertions, t1) ->
  assertions <> [] ->
  (forall n query, fetch_outcome env n query = []) ->
  exists results_dict t2 t3,
    fetch_all_results env assertions t1 = (Ok results_dict, t2)
    /\ Forall (fun item => snd item = []) results_dict
    /\ evaluate_assertions env user_input results_dict t2 = (Ok [], t3)
    /\ generate_calls t3 = generate_calls t1
    /\ process_user_input env user_input t
       = match asyncprocess_and_evaluate env [] t3 with
         | (Ok final_evaluation, t4) => (Ok (final_evaluation, results_dict), t4)
         | (Raise e, t4) => (Raise e, t4)
         end
    /\ generate_calls (snd (process_user_input env user_input t))
       = generate_calls t1 ++ [EvGenerate model_eval (synthesis_prompt "")].
Proof.
  intros G Hne Hnone.
  destruct (fetch_all_results_searches env assertions t1)
    as (d & fadded & F & _ & Fg).
  assert (Hd : Forall (fun item => snd item = []) d).
  { rewrite fetch_all_results_run in F. injection F as <- _.
    apply of_pairs_keeps_Forall. now apply fetched_pairs_no_hits. }
  set (warnings := flat_map (fun item => skipped_events (fst item)) d).
  set (t3 := (t1 ++ fadded)
             ++ evaluator_started :: warnings
             ++ [EvSt StSuccess "All key assumptions evaluated."]).
  assert (E : evaluate_assertions env user_input d (t1 ++ fadded) = (Ok [], t3)).
  { rewrite evaluate_assertions_run. unfold PyDict.items.
    rewrite (evaluate_loop_no_evidence env user_input d Hd).
    unfold t3. now rewrite <- !app_assoc. }
  assert (Hcalls : generate_calls t3 = generate_calls t1).
  { unfold t3, evaluator_started.
    change (?x :: ?l ++ ?r) with ([x] ++ l ++ r).
    rewrite !generate_calls_app, Fg. unfold warnings.
    rewrite generate_calls_skipped. cbn. now rewrite !app_nil_r. }
  assert (P : process_user_input env user_input t
              = match asyncprocess_and_evaluate env [] t3 with
                | (Ok final_evaluation, t4) => (Ok (final_evaluation, d), t4)
                | (Raise e, t4) => (Raise e, t4)
                end).
  { rewrite process_user_input_run, G.
    destruct assertions as [|a l]; [now contradiction Hne |].
    now rewrite F, E. }
  exists d, (t1 ++ fadded), t3.
  split; [exact F |]. split; [exact Hd |]. split; [exact E |].
  split; [exact Hcalls |]. split; [exact P |].
  rewrite P, asyncprocess_and_evaluate_run. cbv zeta.
  cbn [Str.join].
  destruct (llm env _ _ _) as [response | e];
    [destruct (response_text response) as [text | e] |];
    cbn [snd]; rewrite generate_calls_app, Hcalls; reflexivity.
Qed.

Lemma no_evidence_run_witness :
  let env := Samples.env_no_hits in
  let user_input := "The moon is made of cheese."%string in
  let t1 := generator_events_ok user_input in
  exists results_dict t2 t3,
    fetch_all_results env (assertions_of Samples.moon_bullets) t1
      = (Ok results_dict, t2)
    /\ Forall (fun item => snd item = []) results_dict
    /\ evaluate_assertions env user_input results_dict t2 = (Ok [], t3)
    /\ generate_calls t3 = generate_calls t1
    /\ process_user_input env user_input []
       = match asyncprocess_and_evaluate env [] t3 with
         | (Ok final_evaluation, t4) => (Ok (final_evaluation, results_dict), t4)
         | (Raise e, t4) => (Raise e, t4)
         end
    /\ generate_calls (snd (process_user_input env user_input []))
       = generate_calls t1 ++ [EvGenerate model_eval (synthesis_prompt "")].
Proof.
  cbv zeta.
  apply (no_evidence_run Samples.env_no_hits "The moon is made of cheese." []
           (generator_events_ok "The moon is made of cheese.")
           (assertions_of Samples.moon_bullets)).
  - vm_compute. reflexivity.
  - vm_compute. discriminate.
  - intros [|n] query; reflexivity.
Defined.

(* ================================================================== *)
(** ** More on the generator *)
(* ================================================================== *)

Lemma single_line_app (a b : string) :
  single_line (a ++ b)%string = single_line a && single_line b.
Proof.
  induction a as [|c a IH]; [reflexivity |].
  cbn [String.append single_line]. rewrite IH. now rewrite andb_assoc.
Qed.

Lemma splitlines_from_single_line (n : nat) :
  forall (s cur : string),
  String.length s <= n ->
  single_line cur = true ->
  Forall (fun line => single_line line = true) (Str.splitlines_from cur s).
Proof.
  induction n as [|n IH]; intros s cur Hlen Hcur.
  - destruct s; [| cbn in Hlen; lia].
    cbn. destruct (Str.truthy cur); repeat constructor; exact Hcur.
  - destruct s as [|c s].
    + cbn. destruct (Str.truthy cur); repeat constructor; exact Hcur.
    + cbn [String.length] in Hlen. cbn [Str.splitlines_from].
      destruct (Str.is_cr c) eqn:Hcr.
      * destruct s as [|c' s'].
        -- constructor; [exact Hcur |]. apply IH; [cbn; lia | reflexivity].
        -- cbn [String.length] in Hlen.
           destruct (Str.is_lf c'); constructor; try exact Hcur;
             apply IH; cbn [String.length]; try lia; reflexivity.
      * destruct (Str.is_linebreak c) eqn:Hlb.
        -- constructor; [exact Hcur |]. apply IH; [lia | reflexivity].
        -- apply IH; [lia |]. rewrite single_line_app, Hcur.
           cbn [single_line]. now rewrite Hcr, Hlb.
Qed.

Lemma lstrip_single_line (s : string) :
  single_line s = true -> single_line (Str.lstrip s) = true.
Proof.
  induction s as [|c s IH]; [reflexivity |].
  cbn [Str.lstrip]. destruct (Str.is_space c); [| trivial].
  cbn [single_line]. intros H. apply andb_true_iff in H as [_ H]. now apply IH.
Qed.

Lemma rstrip_single_line (s : string) :
  single_line s = true -> single_line (Str.rstrip s) = true.
Proof.
  induction s as [|c s IH]; [reflexivity |].
  cbn [single_line]. intros H. apply andb_true_iff in H as [Hc Hs].
  cbn [Str.rstrip]. specialize (IH Hs).
  destruct (Str.rstrip s) as [|c' r].
  - destruct (Str.is_space c); [reflexivity |].
    cbn [single_line]. now rewrite Hc.
  - cbn [single_line] in *. now rewrite Hc, IH.
Qed.

Lemma delete_char_single_line (c : ascii) (s : string) :
  single_line s = true -> single_line (delete_char c s) = true.
Proof.
  induction s as [|x s IH]; [reflexivity |].
  cbn [single_line delete_char]. intros H.
  apply andb_true_iff in H as [Hx Hs].
  destruct (Ascii.eqb c x); [now apply IH |].
  cbn [single_line]. now rewrite Hx, IH.
Qed.

Lemma assertions_of_single_line (assertions : string) :
  Forall (fun a => single_line a = true) (assertions_of assertions).
Proof.
  unfold assertions_of. apply Forall_map, Forall_forall. intros line Hin.
  apply filter_In in Hin as [Hin _].
  rewrite replace_star. apply delete_char_single_line.
  unfold Str.strip. apply rstrip_single_line, lstrip_single_line.
  pose proof (splitlines_from_single_line (String.length assertions)
                assertions "" (le_n _) eq_refl) as H.
  rewrite Forall_forall in H. now apply H.
Qed.

(** X12.  [generate_assertions] always returns a list (it never raises), and no
    string of the list contains a line boundary: every assumption is one
    line. *)
Theorem generate_assertions_single_lines (env : Env) (user_input : string)
    (t : trace) :
  exists assertions_list t',
    generate_assertions env user_input t = (Ok assertions_list, t')
    /\ Forall (fun a => single_line a = true) assertions_list.
Proof.
  rewrite generate_assertions_run.
  destruct (llm env _ _ _) as [response | e];
    [destruct (response_text response) as [text | e] |];
    do 2 eexists; (split; [reflexivity |]);
    try constructor. apply assertions_of_single_line.
Qed.

Lemma all_space_app (a b : string) :
  all_space (a ++ b)%string = all_space a && all_space b.
Proof.
  induction a as [|c a IH]; [reflexivity |].
  cbn [String.append all_space]. rewrite IH. now rewrite andb_assoc.
Qed.

Lemma linebreak_is_space (c : ascii) :
  Str.is_linebreak c = true -> Str.is_space c = true.
Proof.
  unfold Str.is_linebreak, Str.is_space, Str.in_range.
  generalize (nat_of_ascii c). intros n H.
  repeat rewrite ?orb_true_iff, ?andb_true_iff, ?Nat.leb_le, ?Nat.eqb_eq in *.
  lia.
Qed.

Lemma cr_is_space (c : ascii) : Str.is_cr c = true -> Str.is_space c = true.
Proof.
  unfold Str.is_cr, Str.is_space, Str.in_range.
  generalize (nat_of_ascii c). intros n H.
  repeat rewrite ?orb_true_iff, ?andb_true_iff, ?Nat.leb_le, ?Nat.eqb_eq in *.
  lia.
Qed.

Lemma lf_is_space (c : ascii) : Str.is_lf c = true -> Str.is_space c = true.
Proof.
  unfold Str.is_lf, Str.is_space, Str.in_range.
  generalize (nat_of_ascii c). intros n H.
  repeat rewrite ?orb_true_iff, ?andb_true_iff, ?Nat.leb_le, ?Nat.eqb_eq in *.
  lia.
Qed.

Lemma all_space_nonempty (s : string) :
  all_space s = false -> Str.truthy s = true.
Proof. destruct s; [discriminate | reflexivity]. Qed.

(** A text with a character that is not whitespace has a line with such a
    character. *)
Lemma splitlines_from_nonblank (n : nat) :
  forall (s cur : string),
  String.length s <= n ->
  all_space cur = false \/ all_space s = false ->
  exists line, In line (Str.splitlines_from cur s) /\ all_space line = false.
Proof.
  induction n as [|n IH]; intros s cur Hlen H.
  - destruct s; [| cbn in Hlen; lia].
    destruct H as [H | H]; [| discriminate H].
    cbn. rewrite (all_space_nonempty cur H). exists cur. split; [now left | exact H].
  - destruct s as [|c s].
    + destruct H as [H | H]; [| discriminate H].
      cbn. rewrite (all_space_nonempty cur H).
      exists cur. split; [now left | exact H].
    + cbn [String.length] in Hlen. cbn [Str.splitlines_from].
      destruct (all_space cur) eqn:Hcur.
      2:{ (* the line being read is already not blank *)
        destruct (Str.is_cr c);
          [destruct s as [|c' s']; [| destruct (Str.is_lf c')] |
           destruct (Str.is_linebreak c)];
          try (exists cur; split; [now left | exact Hcur]).
        apply IH; [lia |]. left. rewrite all_space_app, Hcur. reflexivity. }
      destruct H as [H | H]; [discriminate H |].
      cbn [all_space] in H.
      destruct (Str.is_cr c) eqn:Hcr.
      * rewrite (cr_is_space c Hcr) in H. cbn [andb] in H.
        destruct s as [|c' s']; [discriminate H |].
        cbn [String.length] in Hlen.
        destruct (Str.is_lf c') eqn:Hlf.
        -- cbn [all_space] in H. rewrite (lf_is_space c' Hlf) in H.
           cbn [andb] in H.
           destruct (IH s' ""%string ltac:(lia) (or_intror H))
             as (line & Hin & Hline).
           exists line. split; [now right | exact Hline].
        -- destruct (IH (String c' s') ""%string
                       ltac:(cbn [String.length]; lia) (or_intror H))
             as (line & Hin & Hline).
           exists line. split; [now right | exact Hline].
      * destruct (Str.is_linebreak c) eqn:Hlb.
        -- rewrite (linebreak_is_space c Hlb) in H. cbn [andb] in H.
           destruct (IH s ""%string ltac:(lia) (or_intror H))
             as (line & Hin & Hline).
           exists line. split; [now right | exact Hline].
        -- apply IH; [lia |].
           rewrite all_space_app, Hcur. cbn [all_space andb].
           destruct (Str.is_space c); cbn [andb] in *; [now right | now left].
Qed.

Lemma strip_all_space (s : string) :
  all_space (Str.strip s) = all_space s.
Proof.
  unfold Str.strip. destruct (all_space s) eqn:E.
  - now rewrite lstrip_all_space.
  - destruct (lstrip_not_all_space s E) as (c & r & -> & Hc).
    cbn [Str.rstrip].
    destruct (Str.rstrip r); [rewrite Hc |]; cbn [all_space]; now rewrite Hc.
Qed.

Lemma assertions_of_nil_iff (text : string) :
  assertions_of (Str.strip text) = [] <-> all_space text = true.
Proof.
  split.
  - intros H. destruct (all_space text) eqn:E; [reflexivity |].
    rewrite <- strip_all_space in E.
    destruct (splitlines_from_nonblank (String.length (Str.strip text))
                (Str.strip text) ""%string (le_n _) (or_intror E))
      as (line & Hin & Hline).
    unfold assertions_of in H. apply map_eq_nil in H.
    assert (Hf : In line (filter (fun l => Str.truthy (Str.strip l))
                            (Str.splitlines (Str.strip text)))).
    { apply filter_In. split; [exact Hin |].
      now rewrite truthy_strip, Hline. }
    rewrite H in Hf. destruct Hf.
  - intros H. unfold Str.strip. now rewrite lstrip_all_space.
Qed.

(** X13.  When the LLM call returns a reply with a text, [generate_assertions]
    returns the empty list exactly when the text is whitespace only; then
    [process_user_input] stops with the no-assertions message. *)
Theorem generate_assertions_empty_iff_blank (env : Env) (user_input : string)
    (t : trace) (response : Response) (text : string) :
  llm env (List.length (generate_calls t)) model (create_template user_input)
    = Ok response ->
  response_text response = Ok text ->
  (fst (generate_assertions env user_input t) = Ok [] <-> all_space text = true)
  /\ (all_space text = true ->
      process_user_input env user_input t
      = (Ok (NO_ASSERTIONS, PyDict.empty), t ++ generator_events_ok user_input)).
Proof.
  intros L T.
  assert (G : generate_assertions env user_input t
              = (Ok (assertions_of (Str.strip text)),
                 t ++ generator_events_ok user_input)).
  { now rewrite generate_assertions_run, L, T. }
  split.
  - rewrite G. cbn [fst]. rewrite <- assertions_of_nil_iff.
    split; [intros E; now injection E | intros ->; reflexivity].
  - intros B. apply assertions_of_nil_iff in B.
    now rewrite process_user_input_run, G, B.
Qed.

Lemma generate_assertions_empty_iff_blank_witness :
  let text := ("  " ++ Str.nl ++ " ")%string in
  (fst (generate_assertions Samples.env_blank "The moon is made of cheese." [])
     = Ok [] <-> all_space text = true)
  /\ (all_space text = true ->
      process_user_input Samples.env_blank "The moon is made of cheese." []
      = (Ok (NO_ASSERTIONS, PyDict.empty),
         [] ++ generator_events_ok "The moon is made of cheese.")).
Proof.
  cbv zeta.
  apply (generate_assertions_empty_iff_blank Samples.env_blank
           "The moon is made of cheese." []
           (mk_response (Ok ("  " ++ Str.nl ++ " ")%string))).
  - reflexivity.
  - reflexivity.
Defined.

(* ================================================================== *)
(** ** More on verdict extraction *)
(* ================================================================== *)

Lemma check_result_fake_inv (text : string) :
  check_result text = Some "FAKE"%string ->
  Str.occurs_in "final result: fake" (Str.lower text).
Proof.
  unfold check_result. intros H. apply StrFacts.re_search_occurs.
  destruct (Str.matched (Str.re_search "final result: fake" (Str.lower text)));
    [reflexivity |].
  destruct (Str.matched (Str.re_search "final result: real" (Str.lower text)));
    discriminate H.
Qed.

Lemma check_result_some_inv (text : string) :
  check_result text <> None ->
  Str.occurs_in "final result: fake" (Str.lower text)
  \/ Str.occurs_in "final result: real" (Str.lower text).
Proof.
  unfold check_result. intros H.
  destruct (Str.matched (Str.re_search "final result: fake" (Str.lower text)))
    eqn:F; [left; now apply StrFacts.re_search_occurs |].
  destruct (Str.matched (Str.re_search "final result: real" (Str.lower text)))
    eqn:R; [right; now apply StrFacts.re_search_occurs |].
  now contradiction H.
Qed.

Lemma occurs_in_context (p s pre post : string) :
  Str.occurs_in p s -> Str.occurs_in p (pre ++ s ++ post)%string.
Proof.
  intros (a & b & ->). exists (pre ++ a)%string, (b ++ post)%string.
  now rewrite !StrFacts.append_assoc.
Qed.

(** X14.  Putting text before and after a synthesized text never loses a
    verdict: "FAKE" stays "FAKE", and a text that has a verdict keeps
    one. *)
Theorem check_result_survives_context (text pre post : string) :
  (check_result text = Some "FAKE"%string ->
   check_result (pre ++ text ++ post) = Some "FAKE"%string)
  /\ (check_result text <> None ->
      check_result (pre ++ text ++ post) <> None).
Proof.
  split.
  - intros H. apply check_result_fake.
    rewrite !StrFacts.lower_app.
    now apply occurs_in_context, check_result_fake_inv.
  - intros H E.
    assert (Hctx : forall p, Str.occurs_in p (Str.lower text) ->
                             Str.occurs_in p (Str.lower (pre ++ text ++ post))).
    { intros p Hp. rewrite !StrFacts.lower_app. now apply occurs_in_context. }
    destruct (check_result_some_inv text H) as [F | R].
    + rewrite (check_result_fake _ (Hctx _ F)) in E. discriminate E.
    + unfold check_result in E.
      apply Hctx, StrFacts.re_search_occurs in R. rewrite R in E.
      destruct (Str.matched _); discriminate E.
Qed.

(* ================================================================== *)
(** ** The prompt of the generator *)
(* ================================================================== *)

Lemma length_append (a b : string) :
  String.length (a ++ b)%string = String.length a + String.length b.
Proof. induction a as [|c a IH]; cbn; [reflexivity | now rewrite IH]. Qed.

Lemma append_inv_tail (a b r : string) :
  (a ++ r = b ++ r)%string -> a = b.
Proof.
  revert b; induction a as [|c a IH]; intros [|c' b] H; cbn in H.
  - reflexivity.
  - apply (f_equal String.length) in H. cbn in H. rewrite length_append in H. lia.
  - apply (f_equal String.length) in H. cbn in H. rewrite length_append in H. lia.
  - injection H as -> H. f_equal. now apply IH.
Qed.

Lemma append_inv_head (p a b : string) :
  (p ++ a = p ++ b)%string -> a = b.
Proof.
  induction p as [|c p IH]; cbn; intros H; [exact H |].
  injection H as H. now apply IH.
Qed.

(** X15.  The statement is put in the prompt as it is, on the second line, so
    two different statements never get the same prompt. *)
Theorem create_template_distinct (user_input user_input' : string) :
  user_input <> user_input' ->
  create_template user_input <> create_template user_input'.
Proof.
  intros Hne H. apply Hne. unfold create_template in H. cbn [Str.lines] in H.
  do 2 apply append_inv_head in H. now apply append_inv_tail in H.
Qed.

Lemma create_template_distinct_witness :
  create_template "The moon is made of cheese."
  <> create_template "The moon is made of rock.".
Proof.
  apply (create_template_distinct "The moon is made of cheese."
           "The moon is made of rock.").
  discriminate.
Defined.

(* ================================================================== *)
(** ** The page *)
(* ================================================================== *)

(** The trace of [process_user_input] starts with the spinner and the LLM
    call of the generator. *)
Lemma process_user_input_first_call (env : Env) (user_input : string) (t : trace) :
  exists r rest,
    process_user_input env user_input t
    = (r, t ++ EvSt StSpinner "Identifying key assumptions for verification..."
            :: EvGenerate model (create_template user_input) :: rest).
Proof.
  destruct (generate_assertions_total env user_input t)
    as (assertions & gadded & G & Hg).
  assert (Hhead : exists tail,
            gadded = EvSt StSpinner "Identifying key assumptions for verification..."
                     :: EvGenerate model (create_template user_input) :: tail).
  { destruct Hg as [-> | [e ->]]; eexists; reflexivity. }
  destruct Hhead as (tail & ->).
  rewrite process_user_input_run, G.
  destruct assertions as [|a l]; [now eexists _, tail |].
  rewrite fetch_all_results_run.
  match goal with
  | |- context [evaluate_assertions _ _ ?d (?u ++ ?f)] =>
      destruct (evaluate_assertions_calls env user_input d (u ++ f))
        as (eadded & r & -> & _); set (fadded := f)
  end.
  destruct r as [js | e].
  - rewrite asyncprocess_and_evaluate_run. cbv zeta.
    match goal with
    | |- context [?u ++ [synthesizer_started; ?c]] =>
        set (sadded := [synthesizer_started; c])
    end.
    destruct (llm env _ _ _) as [response | e];
      [destruct (response_text response) as [text | e] |];
      eexists _, (tail ++ fadded ++ eadded ++ sadded);
      cbn [List.app]; now rewrite <- !app_assoc.
  - eexists _, (tail ++ fadded ++ eadded).
    cbn [List.app]. now rewrite <- !app_assoc.
Qed.

Lemma filter_nonempty {A} (f : A -> bool) (l : list A) (x : A) :
  In x l -> f x = true -> filter f l <> [].
Proof.
  intros Hin Hx E.
  assert (H : In x (filter f l)) by (apply filter_In; now split).
  rewrite E in H. destruct H.
Qed.

Lemma blank_input (user_input : string) :
  negb (Str.truthy (Str.strip user_input)) = all_space user_input.
Proof. rewrite truthy_strip. apply negb_involutive. Qed.

(** X16.  [main] runs the pipeline only when the button was clicked and the
    input has a character that is not whitespace.  Without a click the
    page is the header; with a click and a blank input it is the header and
    the empty-input error; in both cases no LLM call and no search is
    made.  Otherwise the pipeline runs on the stripped input: the prompt of
    the generator is on the page. *)
Theorem main_runs_pipeline_iff (env : Env) (user_input : string) (clicked : bool) :
  (clicked = false -> main env user_input clicked = (Ok tt, page_header))
  /\ (clicked = true -> all_space user_input = true ->
      main env user_input clicked
      = (Ok tt, page_header ++ [PgCore (EvSt StError EMPTY_INPUT)]))
  /\ (filter is_service (snd (main env user_input clicked)) <> []
      <-> clicked = true /\ all_space user_input = false)
  /\ (clicked = true -> all_space user_input = false ->
      In (PgCore (EvGenerate model (create_template (Str.strip user_input))))
         (snd (main env user_input clicked))).
Proof.
  assert (Hrun : clicked = true -> all_space user_input = false ->
            In (PgCore (EvGenerate model (create_template (Str.strip user_input))))
               (snd (main env user_input clicked))).
  { intros -> B. unfold main. rewrite blank_input, B.
    destruct (process_user_input_first_call env (Str.strip user_input) [])
      as (r & rest & ->).
    cbn [List.app].
    destruct r as [[final d] | e].
    - destruct (source_links (dict_values d)) as [r links]. cbn [snd].
      rewrite in_app_iff, in_app_iff. right. left.
      cbn [map In]. tauto.
    - cbn [snd]. rewrite in_app_iff. right. cbn [map In]. tauto. }
  split; [now intros -> |].
  split; [intros -> B; unfold main; now rewrite blank_input, B |].
  split; [| exact Hrun].
  split.
  - intros H. destruct clicked; [| now contradiction H].
    split; [reflexivity |].
    destruct (all_space user_input) eqn:B; [| reflexivity].
    unfold main in H. rewrite blank_input, B in H. now contradiction H.
  - intros [Hc B]. eapply filter_nonempty; [now apply Hrun | reflexivity].
Qed.

Lemma source_links_are_links (values : list (list json)) :
  Forall (fun pe => is_link pe = true) (snd (source_links values)).
Proof.
  induction values as [|value rest IH]; cbn [source_links]; [constructor |].
  destruct (nonempty value); [| exact IH].
  destruct (first_link value) as [[title url] | e]; [| constructor].
  destruct (source_links rest) as [r page]. cbn [snd] in *.
  now constructor.
Qed.

Lemma verdict_call_cases (final : string) :
  let fake := Str.occurs_in "final result: fake" (Str.lower final) in
  let real := Str.occurs_in "final result: real" (Str.lower final) in
  (fake -> verdict_call (check_result final) = StError)
  /\ (~ fake -> real -> verdict_call (check_result final) = StSuccess)
  /\ (~ fake -> ~ real -> verdict_call (check_result final) = StInfo).
Proof.
  cbv zeta. split; [| split].
  - intros F. now rewrite check_result_fake.
  - intros F R. now rewrite check_result_real.
  - intros F R. now rewrite check_result_unknown.
Qed.

(** X17.  When the pipeline returns, [main] shows the final evaluation between
    the two subheaders, after everything the pipeline did and before the
    source links (nothing but links follows): with [st.error] when the
    lowered text contains "final result: fake", else with [st.success]
    when it contains "final result: real", else with [st.info]. *)
Theorem main_shows_verdict (env : Env) (user_input final : string)
    (results_dict : PyDict.t (list json)) (t : trace) :
  all_space user_input = false ->
  process_user_input env (Str.strip user_input) [] = (Ok (final, results_dict), t) ->
  let fake := Str.occurs_in "final result: fake" (Str.lower final) in
  let real := Str.occurs_in "final result: real" (Str.lower final) in
  exists r call links,
    main env user_input true
    = (r, page_header ++ map PgCore t
          ++ [ PgSubheader "Overall Final Evaluation:";
               PgCore (EvSt call final);
               PgSubheader "Source URLs:" ]
          ++ links)
    /\ Forall (fun pe => is_link pe = true) links
    /\ (fake -> call = StError)
    /\ (~ fake -> real -> call = StSuccess)
    /\ (~ fake -> ~ real -> call = StInfo).
Proof.
  intros B P fake real. unfold main. rewrite blank_input, B, P. cbv zeta.
  pose proof (source_links_are_links (dict_values results_dict)) as Hl.
  destruct (source_links (dict_values results_dict)) as [r links].
  exists r, (verdict_call (check_result final)), links.
  split; [reflexivity |]. split; [exact Hl |].
  apply verdict_call_cases.
Qed.

Lemma main_shows_verdict_witness :
  let final := "Final Result: FAKE. Overall Reasoning: rock, not cheese."%string in
  let t := snd (process_user_input Samples.env_moon
                  "The moon is made of cheese." []) in
  let fake := Str.occurs_in "final result: fake" (Str.lower final) in
  let real := Str.occurs_in "final result: real" (Str.lower final) in
  exists r call links,
    main Samples.env_moon "  The moon is made of cheese. " true
    = (r, page_header ++ map PgCore t
          ++ [ PgSubheader "Overall Final Evaluation:";
               PgCore (EvSt call final);
               PgSubheader "Source URLs:" ]
          ++ links)
    /\ Forall (fun pe => is_link pe = true) links
    /\ (fake -> call = StError)
    /\ (~ fake -> real -> call = StSuccess)
    /\ (~ fake -> ~ real -> call = StInfo).
Proof.
  cbv zeta.
  apply (main_shows_verdict Samples.env_moon "  The moon is made of cheese. "
           "Final Result: FAKE. Overall Reasoning: rock, not cheese."
           [ (Samples.a_cheese, [Samples.rock_record]); (Samples.a_found, []) ]
           (snd (process_user_input Samples.env_moon
                   "The moon is made of cheese." []))).
  - reflexivity.
  - vm_compute. reflexivity.
Defined.

Lemma source_links_of_dicts (d : PyDict.t (list json)) :
  Forall (fun item => Forall (fun record => is_dict record = true) (snd item)) d ->
  exists links,
    source_links (dict_values d) = (Ok tt, links)
    /\ Forall2 (fun link item =>
                  exists record rest,
                    snd item = JDict record :: rest
                    /\ link = PgLink (field record "title" (JStr "No Title"))
                                     (field record "url" (JStr "#")))
               links (filter has_evidence d).
Proof.
  induction 1 as [|[statement value] d Hhead _ (links & IH & Hlinks)].
  - exists []. split; [reflexivity | constructor].
  - cbn [dict_values map snd source_links filter] in *.
    change (has_evidence (statement, value)) with (nonempty value).
    destruct value as [|first rest]; cbn [nonempty].
    + exists links. now split.
    + apply Forall_inv in Hhead. destruct first; try discriminate Hhead.
      cbn. unfold dict_values in IH. rewrite IH.
      eexists. split; [reflexivity |].
      constructor; [| exact Hlinks]. now eexists _, rest.
Qed.

Lemma filter_link_core (t : trace) : filter is_link (map PgCore t) = [].
Proof. induction t as [|ev t IH]; [reflexivity | exact IH]. Qed.

(** X18.  When every evidence record is a dict, [main] ends without raising and
    lists one source link for each assumption that has evidence, in the
    order of the EvidenceSet, made of the title and the url of its first
    record, with "No Title" and "#" for a missing field; assumptions
    without evidence get no link. *)
Theorem main_source_links (env : Env) (user_input final : string)
    (results_dict : PyDict.t (list json)) (t : trace) :
  all_space user_input = false ->
  process_user_input env (Str.strip user_input) [] = (Ok (final, results_dict), t) ->
  Forall (fun item => Forall (fun record => is_dict record = true) (snd item))
         results_dict ->
  exists before links,
    main env user_input true = (Ok tt, before ++ PgSubheader "Source URLs:" :: links)
    /\ filter is_link before = []
    /\ Forall2 (fun link item =>
                  exists record rest,
                    snd item = JDict record :: rest
                    /\ link = PgLink (field record "title" (JStr "No Title"))
                                     (field record "url" (JStr "#")))
               links (filter has_evidence results_dict).
Proof.
  intros B P Hdict. unfold main. rewrite blank_input, B, P. cbv zeta.
  destruct (source_links_of_dicts results_dict Hdict) as (links & -> & Hlinks).
  exists (page_header ++ map PgCore t
          ++ [ PgSubheader "Overall Final Evaluation:";
               PgCore (EvSt (verdict_call (check_result final)) final) ]),
         links.
  split; [now rewrite <- !app_assoc |]. split; [| exact Hlinks].
  rewrite !filter_app, filter_link_core. reflexivity.
Qed.

Lemma main_source_links_witness :
  exists before links,
    main Samples.env_moon "  The moon is made of cheese. " true
      = (Ok tt, before ++ PgSubheader "Source URLs:" :: links)
    /\ filter is_link before = []
    /\ Forall2 (fun link item =>
                  exists record rest,
                    snd item = JDict record :: rest
                    /\ link = PgLink (field record "title" (JStr "No Title"))
                                     (field record "url" (JStr "#")))
               links
               (filter has_evidence
                  [ (Samples.a_cheese, [Samples.rock_record]);
                    (Samples.a_found, []) ]).
Proof.
  apply (main_source_links Samples.env_moon "  The moon is made of cheese. "
           "Final Result: FAKE. Overall Reasoning: rock, not cheese."
           [ (Samples.a_cheese, [Samples.rock_record]); (Samples.a_found, []) ]
           (snd (process_user_input Samples.env_moon
                   "The moon is made of cheese." []))).
  - reflexivity.
  - vm_compute. reflexivity.
  - repeat constructor.
Defined.

(** X19.  When the generator returns no assumption, [main] shows the
    no-assertions message with [st.info] (the message has no verdict
    marker) and lists no source link. *)
Theorem main_no_assertions (env : Env) (user_input : string) (t1 : trace) :
  all_space user_input = false ->
  generate_assertions env (Str.strip user_input) [] = (Ok [], t1) ->
  main env user_input true
  = (Ok tt,
     page_header ++ map PgCore t1
     ++ [ PgSubheader "Overall Final Evaluation:";
          PgCore (EvSt StInfo "No assertions generated. Cannot proceed.");
          PgSubheader "Source URLs:" ]).
Proof.
  intros B G. unfold main.
  rewrite blank_input, B, process_user_input_run, G. cbv zeta.
  cbn [dict_values PyDict.empty map source_links].
  now rewrite app_nil_r.
Qed.

Lemma main_no_assertions_witness :
  main Samples.env_down "The moon is made of cheese." true
  = (Ok tt,
     page_header
     ++ map PgCore (generator_events_failed "The moon is made of cheese."
                      Samples.timeout)
     ++ [ PgSubheader "Overall Final Evaluation:";
          PgCore (EvSt StInfo "No assertions generated. Cannot proceed.");
          PgSubheader "Source URLs:" ]).
Proof.
  apply (main_no_assertions Samples.env_down "The moon is made of cheese."
           (generator_events_failed "The moon is made of cheese." Samples.timeout)).
  - reflexivity.
  - vm_compute. reflexivity.
Defined.

(* ================================================================== *)
(** ** The order of the stages, and what comes out stripped *)
(* ================================================================== *)

(** X20.  The fetch phase is over before any evaluation starts: the trace of
    [process_user_input] splits in two parts, the first with the call of the
    generator as its only LLM call, the second without any search.  So every
    search of the run comes before every evaluation call and before the
    synthesis call. *)
Theorem searches_precede_evaluations (env : Env) (user_input : string)
    (t : trace) :
  exists r before after,
    process_user_input env user_input t = (r, t ++ before ++ after)
    /\ generate_calls before = [EvGenerate model (create_template user_input)]
    /\ search_calls after = [].
Proof.
  destruct (generate_assertions_total env user_input t)
    as (assertions & gadded & G & Hg).
  assert (Gg : generate_calls gadded
               = [EvGenerate model (create_template user_input)]).
  { destruct Hg as [-> | [e ->]]; reflexivity. }
  rewrite process_user_input_run, G.
  destruct assertions as [|a l].
  { eexists _, gadded, []. rewrite app_nil_r. now repeat split. }
  destruct (fetch_all_results_searches env (a :: l) (t ++ gadded))
    as (d & fadded & -> & _ & Fg).
  destruct (evaluate_assertions_calls env user_input d
              ((t ++ gadded) ++ fadded)) as (eadded & r & -> & Es & _).
  assert (Hbefore : generate_calls (gadded ++ fadded)
                    = [EvGenerate model (create_template user_input)]).
  { now rewrite generate_calls_app, Gg, Fg. }
  destruct r as [js | e].
  - rewrite asyncprocess_and_evaluate_run. cbv zeta.
    match goal with
    | |- context [?u ++ [synthesizer_started; ?c]] =>
        set (sadded := [synthesizer_started; c])
    end.
    assert (Hafter : search_calls (eadded ++ sadded) = []).
    { now rewrite search_calls_app, Es. }
    destruct (llm env _ _ _) as [response | e];
      [destruct (response_text response) as [text | e] |];
      eexists _, (gadded ++ fadded), (eadded ++ sadded);
      (split; [now rewrite <- !app_assoc |]); now split.
  - eexists _, (gadded ++ fadded), eadded.
    split; [now rewrite <- !app_assoc |]. now split.
Qed.

Lemma judgment_of_stripped (env : Env) (user_input : string)
    (items : list (string * list json)) (judgment : string) :
  judgment_of env user_input items judgment ->
  Str.strip judgment = judgment.
Proof.
  intros (s & c & ti & co & u & n & r & tx & _ & _ & _ & _ & _ & ->).
  apply strip_idempotent.
Qed.

(** X21.  Whatever [process_user_input] returns as the final evaluation has no
    whitespace at either end (stripping it changes nothing): it is the
    fixed no-assertions message or the stripped reply of the synthesis
    call.  The same holds for every judgment [evaluate_assertions]
    returns. *)
Theorem outputs_are_stripped (env : Env) (user_input : string) (t : trace) :
  (forall final results_dict t',
     process_user_input env user_input t = (Ok (final, results_dict), t') ->
     Str.strip final = final)
  /\ (forall results_dict judgments t',
        evaluate_assertions env user_input results_dict t = (Ok judgments, t') ->
        Forall (fun judgment => Str.strip judgment = judgment) judgments).
Proof.
  split.
  - intros final d t'. rewrite process_user_input_run.
    destruct (generate_assertions env user_input t) as [[[|a l] | e] t1];
      [intros E; injection E as <- _ _; reflexivity | | discriminate].
    destruct (fetch_all_results env (a :: l) t1) as [[d' | e] t2];
      [| discriminate].
    destruct (evaluate_assertions env user_input d' t2) as [[js | e] t3];
      [| discriminate].
    rewrite asyncprocess_and_evaluate_run. cbv zeta.
    destruct (llm env _ _ _) as [response | e];
      [destruct (response_text response) as [text | e] |]; try discriminate.
    intros E. injection E as <- _ _. apply strip_idempotent.
  - intros d judgments t'. rewrite evaluate_assertions_run.
    destruct (evaluate_loop_sound env user_input (PyDict.items d) []
                (t ++ [evaluator_started]))
      as (added & r & -> & _ & _ & _ & Hj).
    destruct r as [l | e]; [| discriminate].
    intros E. injection E as <- _.
    destruct (Hj l eq_refl) as (new & -> & Hnew & _). cbn [List.app].
    eapply Forall_impl; [| exact Hnew].
    intros j. apply judgment_of_stripped.
Qed.
